(** * detect-secrets: declaration and resolution of filters

    A shallow embedding of [detect_secrets/core/usage/filters.py]:
    the syntactic validator of custom filter references
    ([valid_looking_paths]), their resolution
    ([_raise_if_custom_filter_path_is_invalid]) and the registration
    engine ([parse_args]), followed by the properties of the
    specification that concern them, and of
    [detect_secrets/util/color.py], the colors of the terminal output.

    Python strings are [string]s, the registry [get_settings().filters]
    is a [gmap] from identifiers to parameter dictionaries, and a raised
    exception is a result that keeps the state reached so far, since the
    registry is a shared object mutated in place. *)

From Stdlib Require Import ZArith String Ascii List Bool Lia.
From Stdlib Require Import Floats.PrimFloat.
From stdpp Require Import base option list gmap strings.

Local Open Scope string_scope.

(** ** Python string operations used by the source *)

Module PyStr.

(** The one-character string with the given code. *)
Definition chr (n : nat) : string := String (ascii_of_nat n) EmptyString.

(** The double quote that the messages of the source print. *)
Definition dq : string := chr 34.

(** [sub in s]. *)
Fixpoint contains (sub s : string) : bool :=
  String.prefix sub s ||
  match s with
  | EmptyString => false
  | String _ s' => contains sub s'
  end.

(** [s[n:]]. *)
Fixpoint drop (n : nat) (s : string) : string :=
  match n, s with
  | O, _ => s
  | S _, EmptyString => EmptyString
  | S n', String _ s' => drop n' s'
  end.

(** [s[:n]]. *)
Fixpoint take (n : nat) (s : string) : string :=
  match n, s with
  | O, _ => EmptyString
  | S _, EmptyString => EmptyString
  | S n', String c s' => String c (take n' s')
  end.

(** [s.split(sep)] for a non-empty [sep]: the separators are found from
    left to right and do not overlap.  [skip] counts the characters of
    a separator still to be passed over, [cur] is the component being
    read. *)
Fixpoint split_from (sep : string) (skip : nat) (cur s : string)
  : list string :=
  match s with
  | EmptyString => [cur]
  | String c s' =>
      match skip with
      | S k => split_from sep k cur s'
      | O =>
          if String.prefix sep s
          then cur :: split_from sep (String.length sep - 1) EmptyString s'
          else split_from sep 0 (cur +:+ String c EmptyString) s'
      end
  end.

Definition split (sep s : string) : list string :=
  split_from sep 0 EmptyString s.

(** [s.rsplit(c, 1)] for a one-character separator: [None] when [c] does
    not occur (Python then returns the one-element list [[s]]), and the
    texts before and after the last [c] otherwise. *)
Fixpoint rsplit1 (c : ascii) (s : string) : option (string * string) :=
  match s with
  | EmptyString => None
  | String a s' =>
      match rsplit1 c s' with
      | Some (before, after) => Some (String a before, after)
      | None => if Ascii.eqb a c then Some (EmptyString, s') else None
      end
  end.

(** [s.find(c)] for a one-character [c]; [None] stands for [-1]. *)
Fixpoint find (c : ascii) (s : string) : option nat :=
  match s with
  | EmptyString => None
  | String a s' =>
      if Ascii.eqb a c then Some O else S <$> find c s'
  end.

(** [s.rfind(c)]. *)
Fixpoint rfind (c : ascii) (s : string) : option nat :=
  match s with
  | EmptyString => None
  | String a s' =>
      match rfind c s' with
      | Some i => Some (S i)
      | None => if Ascii.eqb a c then Some O else None
      end
  end.

Definition code (a : ascii) : N := N_of_ascii a.

Definition between (lo hi : N) (a : ascii) : bool :=
  (lo <=? code a)%N && (code a <=? hi)%N.

Definition is_upper : ascii -> bool := between 65 90.
Definition is_lower : ascii -> bool := between 97 122.
Definition is_digit : ascii -> bool := between 48 57.

(** [c.isascii() and c.isalpha()]. *)
Definition is_ascii_alpha (a : ascii) : bool := is_upper a || is_lower a.

Definition lower_char (a : ascii) : ascii :=
  if is_upper a then ascii_of_N (code a + 32) else a.

(** [s.lower()] on ASCII text. *)
Fixpoint lower (s : string) : string :=
  match s with
  | EmptyString => EmptyString
  | String a s' => String (lower_char a) (lower s')
  end.

Fixpoint forallb (p : ascii -> bool) (s : string) : bool :=
  match s with
  | EmptyString => true
  | String a s' => p a && forallb p s'
  end.

(** [s.lstrip(chars)] with the characters given by a predicate. *)
Fixpoint lstrip (p : ascii -> bool) (s : string) : string :=
  match s with
  | EmptyString => EmptyString
  | String a s' => if p a then lstrip p s' else s
  end.

(** Removal of every character that satisfies [p]
    ([s.replace(b, EmptyString)] for each such one-character [b]). *)
Fixpoint remove (p : ascii -> bool) (s : string) : string :=
  match s with
  | EmptyString => EmptyString
  | String a s' => if p a then remove p s' else String a (remove p s')
  end.

End PyStr.

(** ** Exceptions and results *)

Inductive exn : Type :=
| ArgumentTypeError (msg : string)
| ValueError
| ModuleNotFoundError
| FileNotFoundError
| InvalidFile
| OtherError (name : string).

(** What a call gives: a value, or a raised exception. *)
Inductive Res (A : Type) : Type :=
| Ok (a : A)
| Raise (e : exn).

Arguments Ok {A} a.
Arguments Raise {A} e.

(** ** [urllib.parse.urlparse]

    The source reads two fields of the result, [scheme] and [path]. *)

Module Urllib.

Record ParseResult : Type := {
  scheme : string;
  netloc : string;
  path : string
}.

(** *** A reference model of CPython's [urlparse] on ASCII text

    It follows [urlsplit] of CPython 3.11 step by step.  Two checks of
    the network location are simplified: a location that holds a
    square bracket is reported as [ValueError] (CPython accepts it
    when the brackets hold an IP literal), and the NFKC check, which
    concerns non-ASCII text only, is left out.  The model is CPython's
    on text of ASCII without a square bracket. *)

Definition scheme_char (a : ascii) : bool :=
  PyStr.is_lower a || PyStr.is_upper a || PyStr.is_digit a ||
  Ascii.eqb a "+" || Ascii.eqb a "-" || Ascii.eqb a ".".

Definition c0_control_or_space (a : ascii) : bool := (PyStr.code a <=? 32)%N.

Definition unsafe_byte (a : ascii) : bool :=
  (PyStr.code a =? 9)%N || (PyStr.code a =? 13)%N || (PyStr.code a =? 10)%N.

(** The scheme and the rest of [url], when [url] starts with a scheme. *)
Definition split_scheme (url : string) : string * string :=
  match PyStr.find ":" url with
  | Some (S i') =>
      let i := S i' in
      match url with
      | String a _ =>
          if PyStr.is_ascii_alpha a && PyStr.forallb scheme_char (PyStr.take i url)
          then (PyStr.lower (PyStr.take i url), PyStr.drop (S i) url)
          else (EmptyString, url)
      | EmptyString => (EmptyString, url)
      end
  | _ => (EmptyString, url)
  end.

Definition is_delim (a : ascii) : bool :=
  Ascii.eqb a "/" || Ascii.eqb a "?" || Ascii.eqb a "#".

(** [_splitnetloc(url, 0)]: the text up to the first of [/?#], and the
    rest from that character on. *)
Fixpoint splitnetloc (url : string) : string * string :=
  match url with
  | EmptyString => (EmptyString, EmptyString)
  | String a s' =>
      if is_delim a then (EmptyString, url)
      else let '(n, r) := splitnetloc s' in (String a n, r)
  end.

(** [url.split(c, 1)[0]]: the text before the first [c], or all of it. *)
Definition before_first (c : ascii) (url : string) : string :=
  match PyStr.find c url with
  | Some i => PyStr.take i url
  | None => url
  end.

Definition uses_params : list string :=
  [EmptyString; "ftp"; "hdl"; "prospero"; "http"; "imap"; "https"; "shttp";
   "rtsp"; "rtspu"; "sip"; "sips"; "mms"; "sftp"; "tel"].

(** The first component of [_splitparams(url)]. *)
Definition splitparams (url : string) : string :=
  match PyStr.rfind "/" url with
  | Some k =>
      match PyStr.find ";" (PyStr.drop k url) with
      | Some i => PyStr.take (k + i) url
      | None => url
      end
  | None => before_first ";" url
  end.

Definition urlparse (url0 : string) : Res ParseResult :=
  let url := PyStr.lstrip c0_control_or_space url0 in
  let url := PyStr.remove unsafe_byte url in
  let '(sch, url) := split_scheme url in
  let '(net, url) :=
    if String.prefix "//" url then splitnetloc (PyStr.drop 2 url)
    else (EmptyString, url) in
  if PyStr.contains "[" net || PyStr.contains "]" net then Raise ValueError
  else
    let url := before_first "#" url in
    let url := before_first "?" url in
    let url :=
      if bool_decide (sch ∈ uses_params) && PyStr.contains ";" url
      then splitparams url else url in
    Ok {| scheme := sch; netloc := net; path := url |}.

End Urllib.

(** ** Values, options and the world outside the module *)

(** What a name of a module can be bound to, as far as
    [inspect.isfunction] tells them apart. *)
Inductive PyObj : Type :=
| PyFunction
| PyClass
| PyModuleObj
| PyBuiltin
| PyOther.

(** [inspect.isfunction]: true of functions written in Python only. *)
Definition isfunction (o : PyObj) : bool :=
  match o with
  | PyFunction => true
  | _ => false
  end.

(** [callable(o)]. *)
Definition callable (o : PyObj) : bool :=
  match o with
  | PyFunction | PyClass | PyBuiltin => true
  | _ => false
  end.

(** A loaded module is the dictionary of its names; [getattr] is a
    lookup, and a missing name is [AttributeError]. *)
Abbreviation PyModule := (gmap string PyObj).

Definition getattr (module : PyModule) (name : string) : option PyObj :=
  module !! name.

(** The values kept in parameter dictionaries and keyword arguments. *)
Inductive Value : Type :=
| VStrList (l : list string)
| VInt (n : Z)
| VStr (s : string)
| VFloat (x : float).

Abbreviation Params := (gmap string Value).

(** [detect_secrets.constants.VerifiedResult]; the value of each member
    is a constant of another module, see [value] below. *)
Inductive VerifiedResult : Type :=
| VERIFIED_FALSE
| UNVERIFIED
| VERIFIED_TRUE.

(** The [argparse.Namespace] built from the options of
    [add_filter_options].  An option that was not given is [None];
    [--filter] and [--disable-filter] have [nargs=1] and
    [action='append'], so they hold a list of lists.  [custom_filter] is
    [args.filter].  [parse_args] also stores the flattened lists back
    into [args.disable_filter] and [args.filter]; nothing reads them
    afterwards in this module, and the model keeps the lists in local
    names only. *)
Record Args : Type := {
  exclude_lines : option (list string);
  exclude_files : option (list string);
  exclude_secrets : option (list string);
  word_list_file : option string;
  gibberish_model_file : option string;
  gibberish_limit : option float;
  huggingface_model : option string;
  threshold : option float;
  huggingface_token : option string;
  no_verify : bool;
  only_verified : bool;
  disable_filter : option (list (list string));
  custom_filter : option (list (list string))
}.

(** A call of an [initialize] function of an optional filter. *)
Record Call : Type := {
  callee : string;
  posargs : list Value;
  kwargs : Params
}.

(** Everything [filters.py] reads from other modules.  [initialize] is
    the effect of [filters.<callee>.initialize] on the registry: these
    functions live in other modules, may write their own entry and may
    raise. *)
Record World : Type := {
  urlparse : string -> Res Urllib.ParseResult;
  isfile : string -> bool;
  import_module : string -> Res PyModule;
  import_file_as_module : string -> Res PyModule;
  value : VerifiedResult -> Z;
  wordlist_is_feature_enabled : bool;
  gibberish_is_feature_enabled : bool;
  classifier_is_feature_ready : Args -> bool;
  cuda_is_available : bool;
  initialize : Call -> gmap string Params -> Res unit * gmap string Params
}.

(** ** Truthiness *)

Class Truthy (A : Type) := truthy : A -> bool.

#[global] Instance truthy_bool : Truthy bool := fun b => b.
#[global] Instance truthy_string : Truthy string :=
  fun s => match s with EmptyString => false | _ => true end.
#[global] Instance truthy_float : Truthy float :=
  fun x => negb (PrimFloat.eqb x 0%float).
#[global] Instance truthy_list {A} : Truthy (list A) :=
  fun l => match l with [] => false | _ => true end.
#[global] Instance truthy_option {A} `{Truthy A} : Truthy (option A) :=
  fun o => match o with Some a => truthy a | None => false end.

(** ** The process state and its monad *)

(** [filters] is [get_settings().filters]; [warnings] are the messages
    given to [log.warning] by [parse_args], oldest first; [calls] are the
    [initialize] calls made, oldest first; [num_cores] is
    [args.num_cores], the one attribute of [args] that [parse_args]
    creates; [start_method] is the process-wide start method of
    [torch.multiprocessing]. *)
Record State : Type := {
  filters : gmap string Params;
  warnings : list string;
  calls : list Call;
  num_cores : option (list Z);
  start_method : option string
}.

Definition with_filters (f : gmap string Params) (st : State) : State :=
  {| filters := f; warnings := warnings st; calls := calls st;
     num_cores := num_cores st; start_method := start_method st |}.

Definition with_warnings (l : list string) (st : State) : State :=
  {| filters := filters st; warnings := l; calls := calls st;
     num_cores := num_cores st; start_method := start_method st |}.

Definition with_calls (l : list Call) (st : State) : State :=
  {| filters := filters st; warnings := warnings st; calls := l;
     num_cores := num_cores st; start_method := start_method st |}.

Definition with_num_cores (n : option (list Z)) (st : State) : State :=
  {| filters := filters st; warnings := warnings st; calls := calls st;
     num_cores := n; start_method := start_method st |}.

Definition with_start_method (m : option string) (st : State) : State :=
  {| filters := filters st; warnings := warnings st; calls := calls st;
     num_cores := num_cores st; start_method := m |}.

(** A computation gives a result and the state it leaves; the state is
    kept when an exception is raised. *)
Definition M (A : Type) : Type := State -> Res A * State.

#[global] Instance M_ret : MRet M := fun A a st => (Ok a, st).

#[global] Instance M_bind : MBind M := fun A B f m st =>
  match m st with
  | (Ok a, st') => f a st'
  | (Raise e, st') => (Raise e, st')
  end.

Definition lift {A} (r : Res A) : M A := fun st => (r, st).

Definition pass : M unit := mret tt.

(** [for x in l: body(x)]. *)
Fixpoint for_each {A} (l : list A) (body : A -> M unit) : M unit :=
  match l with
  | [] => pass
  | x :: l' => body x ;; for_each l' body
  end.

(** [if o: body], with the value of [o] at hand. *)
Definition if_truthy {A} `{Truthy A} (o : option A) (body : A -> M unit)
  : M unit :=
  match o with
  | Some a => if truthy a then body a else pass
  | None => pass
  end.

(** [if o: kwargs[key] = o]. *)
Definition set_if {A} `{Truthy A} (key : string) (o : option A)
    (inj : A -> Value) (kw : Params) : Params :=
  match o with
  | Some a => if truthy a then <[key := inj a]> kw else kw
  | None => kw
  end.

(** [get_settings().filters[name] = params]. *)
Definition set_filter (name : string) (params : Params) : M unit :=
  fun st => (Ok tt, with_filters (<[name := params]> (filters st)) st).

(** Modelled from the spec: [Settings.disable_filters] of
    [detect_secrets/settings.py], which is not among the sources.  It
    removes every listed identifier from the registry, whether or not it
    was present. *)
Definition disable_filters (names : list string) : M unit :=
  fun st =>
    (Ok tt,
     with_filters (foldl (fun f name => delete name f) (filters st) names) st).

(** [log.warning(message)]. *)
Definition log_warning (message : string) : M unit :=
  fun st => (Ok tt, with_warnings (warnings st ++ [message]) st).

(** A call of [filters.<callee>.initialize] with the given positional
    and keyword arguments. *)
Definition call_initialize (w : World) (c : Call) : M unit :=
  fun st =>
    let '(r, f) := initialize w c (filters st) in
    (r, with_filters f (with_calls (calls st ++ [c]) st)).

(** ** The source functions *)

Definition VERIFICATION_FILTER : string :=
  "detect_secrets.filters.common.is_ignored_due_to_verification_policies".

Definition FILE_SCHEME : string := "file://".

(** [valid_looking_paths], the [type] of the [--filter] option.  The
    result comes with the paths given to [os.path.isfile], in order. *)
Definition valid_looking_paths (w : World) (path : string)
  : Res string * list string :=
  match urlparse w path with
  | Raise e => (Raise e, [])
  | Ok parts =>
      let reinterpreted :=
        negb (truthy (Urllib.scheme parts)) && PyStr.contains "::" path in
      (* This could be a local file, without the file schema. *)
      let path := if reinterpreted then FILE_SCHEME +:+ path else path in
      match (if reinterpreted then urlparse w path else Ok parts) with
      | Raise e => (Raise e, [])
      | Ok parts =>
          if String.eqb (Urllib.scheme parts) "file" then
            let components := PyStr.split "::" (Urllib.path parts) in
            if negb (Nat.eqb (length components) 2) then
              (Raise (ArgumentTypeError
                        "Did not specify function name for imported file."),
               [])
            else
              let file_path :=
                hd EmptyString
                  (PyStr.split "::"
                     (PyStr.drop (String.length FILE_SCHEME) path)) in
              if negb (isfile w file_path) then
                (Raise (ArgumentTypeError
                          (file_path +:+ " is not a valid file.")),
                 [file_path])
              else (Ok path, [file_path])
          else if truthy (Urllib.scheme parts) then
            (Raise (ArgumentTypeError
                      (path +:+ " is not a valid filter path.")),
             [])
          else (Ok path, [])
      end
  end.

(** The [--filter] option as [_add_custom_filters] declares it: every
    occurrence is passed through [valid_looking_paths] and, with
    [nargs=1] and [action='append'], adds a one-element list.  No
    occurrence leaves the attribute at [None]; the first invalid one
    ends the parsing. *)
Fixpoint collect_filter_option (w : World) (raws : list string)
  : Res (list (list string)) :=
  match raws with
  | [] => Ok []
  | raw :: raws' =>
      match (valid_looking_paths w raw).1 with
      | Raise e => Raise e
      | Ok path =>
          match collect_filter_option w raws' with
          | Raise e => Raise e
          | Ok items => Ok ([path] :: items)
          end
      end
  end.

Definition filter_option (w : World) (raws : list string)
  : Res (option (list (list string))) :=
  match raws with
  | [] => Ok None
  | _ =>
      match collect_filter_option w raws with
      | Raise e => Raise e
      | Ok items => Ok (Some items)
      end
  end.

(** [_raise_if_custom_filter_path_is_invalid]: post-validation of a
    custom filter. *)
Definition _raise_if_custom_filter_path_is_invalid (w : World) (path : string)
  : Res unit :=
  match urlparse w path with
  | Raise e => Raise e
  | Ok parts =>
      if negb (truthy (Urllib.scheme parts)) then
        match PyStr.rsplit1 "." path with
        | None =>
            Raise (ArgumentTypeError
                     "Invalid Python module path for custom filter.")
        | Some (module_path, function_name) =>
            match import_module w module_path with
            | Raise ModuleNotFoundError =>
                Raise (ArgumentTypeError
                         ("Cannot import " +:+ PyStr.dq +:+ path +:+ PyStr.dq
                          +:+ " as custom filter."))
            | Raise e => Raise e
            | Ok module =>
                match getattr module function_name with
                | None =>
                    Raise (ArgumentTypeError
                             ("No filter function named `" +:+ function_name
                              +:+ "` found in " +:+ PyStr.dq +:+ module_path
                              +:+ PyStr.dq +:+ "."))
                | Some function =>
                    if negb (isfunction function) then
                      Raise (ArgumentTypeError
                               (path +:+ " is not a filter function."))
                    else Ok tt
                end
            end
        end
      else if String.eqb (Urllib.scheme parts) "file" then
        match PyStr.split "::" (PyStr.drop (String.length FILE_SCHEME) path) with
        | [file_path; function_name] =>
            match import_file_as_module w file_path with
            | Raise FileNotFoundError | Raise InvalidFile =>
                Raise (ArgumentTypeError
                         ("Cannot import " +:+ file_path
                          +:+ " as custom filter."))
            | Raise e => Raise e
            | Ok module =>
                match getattr module function_name with
                | None =>
                    Raise (ArgumentTypeError
                             ("No filter function named `" +:+ function_name
                              +:+ "` found in " +:+ PyStr.dq +:+ file_path
                              +:+ PyStr.dq +:+ "."))
                | Some _ => Ok tt
                end
            end
        | _ => Raise ValueError
        end
      else Ok tt
  end.

(** The keyword arguments of [filters.gibberish.initialize]. *)
Definition gibberish_kwargs (args : Args) : Params :=
  set_if "limit" (gibberish_limit args) VFloat
    (set_if "model_path" (gibberish_model_file args) VStr ∅).

(** The keyword arguments of [filters.classifier.initialize]. *)
Definition classifier_kwargs (args : Args) : Params :=
  set_if "huggingface_token" (huggingface_token args) VStr
    (set_if "threshold" (threshold args) VFloat
       (set_if "huggingface_model" (huggingface_model args) VStr ∅)).

Definition redundant_warning (name : string) : string :=
  "Redundant --disable-filter " +:+ PyStr.dq +:+ name +:+ PyStr.dq.

(** The blocks of [parse_args], in the order of the source. *)

Definition register_exclude_patterns (args : Args) : M unit :=
  if_truthy (exclude_lines args) (fun patterns =>
    set_filter "detect_secrets.filters.regex.should_exclude_line"
      {[ "pattern" := VStrList patterns ]}) ;;
  if_truthy (exclude_files args) (fun patterns =>
    set_filter "detect_secrets.filters.regex.should_exclude_file"
      {[ "pattern" := VStrList patterns ]}) ;;
  if_truthy (exclude_secrets args) (fun patterns =>
    set_filter "detect_secrets.filters.regex.should_exclude_secret"
      {[ "pattern" := VStrList patterns ]}).

(** The word-list, gibberish and classifier blocks.  The classifier
    block imports [torch], which a ready classifier has installed. *)
Definition initialize_optional_filters (w : World) (args : Args) : M unit :=
  (if wordlist_is_feature_enabled w then
     if_truthy (word_list_file args) (fun file =>
       call_initialize w
         {| callee := "wordlist"; posargs := [VStr file]; kwargs := ∅ |})
   else pass) ;;
  (if gibberish_is_feature_enabled w then
     call_initialize w
       {| callee := "gibberish"; posargs := [];
          kwargs := gibberish_kwargs args |}
   else pass) ;;
  (if classifier_is_feature_ready w args then
     (fun st =>
        (Ok tt,
         with_num_cores
           (Some (if cuda_is_available w then [3%Z] else [1%Z])) st)) ;;
     (fun st => (Ok tt, with_start_method (Some "spawn") st)) ;;
     call_initialize w
       {| callee := "classifier"; posargs := [];
          kwargs := classifier_kwargs args |}
   else pass).

Definition apply_verification_policy (w : World) (args : Args) : M unit :=
  if negb (no_verify args) then
    set_filter VERIFICATION_FILTER
      {[ "min_level" :=
           VInt (value w (if only_verified args
                          then VERIFIED_TRUE else UNVERIFIED)) ]}
  else disable_filters [VERIFICATION_FILTER].

(** The disable list.  Python iterates over the set of redundant names
    in an order of its own; the model takes the order of [elements], and
    no property below depends on it. *)
Definition disable_listed_filters (args : Args) : M unit :=
  if_truthy (disable_filter args) (fun items =>
    (* Flatten entry for easier parsing. *)
    let names := concat items in
    fun st =>
      let redundant_disabled_filters : gset string :=
        list_to_set names ∖ dom (filters st) in
      (for_each (elements redundant_disabled_filters)
         (fun name => log_warning (redundant_warning name)) ;;
       disable_filters names) st).

Definition register_custom_filters (w : World) (args : Args) : M unit :=
  if_truthy (custom_filter args) (fun items =>
    (* Flatten entry for easier parsing. *)
    for_each (concat items) (fun item =>
      lift (_raise_if_custom_filter_path_is_invalid w item) ;;
      set_filter item ∅)).

Definition parse_args (w : World) (args : Args) : M unit :=
  register_exclude_patterns args ;;
  initialize_optional_filters w args ;;
  apply_verification_policy w args ;;
  disable_listed_filters args ;;
  register_custom_filters w args.

(** ** A concrete world and concrete options

    A checkout that holds the file [testing/custom_filters.py] of the
    comment in [valid_looking_paths], with a filter function and a
    constant in it, and the module [detect_secrets.filters.common].
    Python is CPython, with the reference [urlparse]. *)

Module Sample.

Definition custom_filters_py : PyModule :=
  {[ "is_invalid_secret" := PyFunction; "LIMIT" := PyOther ]}.

Definition filters_common : PyModule :=
  {[ "is_invalid_file" := PyFunction;
     "is_ignored_due_to_verification_policies" := PyFunction;
     "Path" := PyClass ]}.

(** Modelled from the spec: the values of
    [detect_secrets.constants.VerifiedResult], which is not among the
    sources; the ranks follow the order the specification gives,
    UNVERIFIED < VERIFIED_FALSE < VERIFIED_TRUE. *)
Definition rank (r : VerifiedResult) : Z :=
  match r with
  | UNVERIFIED => 1
  | VERIFIED_FALSE => 2
  | VERIFIED_TRUE => 3
  end.

Definition world (ready cuda : bool) : World := {|
  urlparse := Urllib.urlparse;
  isfile := fun p => String.eqb p "testing/custom_filters.py";
  import_module := fun name =>
    if String.eqb name "detect_secrets.filters.common"
    then Ok filters_common else Raise ModuleNotFoundError;
  import_file_as_module := fun p =>
    if String.eqb p "testing/custom_filters.py"
    then Ok custom_filters_py else Raise FileNotFoundError;
  value := rank;
  wordlist_is_feature_enabled := true;
  gibberish_is_feature_enabled := true;
  classifier_is_feature_ready := fun _ => ready;
  cuda_is_available := cuda;
  initialize := fun _ f => (Ok tt, f)
|}.

Definition no_options : Args := {|
  exclude_lines := None; exclude_files := None; exclude_secrets := None;
  word_list_file := None; gibberish_model_file := None;
  gibberish_limit := None; huggingface_model := None; threshold := None;
  huggingface_token := None; no_verify := false; only_verified := false;
  disable_filter := None; custom_filter := None
|}.

Definition fresh : State := {|
  filters := ∅; warnings := []; calls := []; num_cores := None;
  start_method := None
|}.

End Sample.

(** ** Vocabulary of the properties *)

(** The [initialize] functions of the optional filters return normally. *)
Definition initialize_returns (w : World) : Prop :=
  forall c f, (initialize w c f).1 = Ok tt.

(** An option as the command line leaves it when it is not given. *)
Definition omitted {A} `{Truthy A} (o : option A) : option A :=
  if truthy o then o else None.

(** The options with every parameter of an optional filter that is
    zero or empty taken away. *)
Definition without_falsy (args : Args) : Args := {|
  exclude_lines := exclude_lines args;
  exclude_files := exclude_files args;
  exclude_secrets := exclude_secrets args;
  word_list_file := omitted (word_list_file args);
  gibberish_model_file := omitted (gibberish_model_file args);
  gibberish_limit := omitted (gibberish_limit args);
  huggingface_model := omitted (huggingface_model args);
  threshold := omitted (threshold args);
  huggingface_token := omitted (huggingface_token args);
  no_verify := no_verify args;
  only_verified := only_verified args;
  disable_filter := disable_filter args;
  custom_filter := custom_filter args
|}.

(** The worker count the classifier block computes. *)
Definition computed_num_cores (w : World) : list Z :=
  if cuda_is_available w then [3%Z] else [1%Z].

(** The registry the verification block leaves. *)
Definition verification_policy (w : World) (args : Args)
    (f : gmap string Params) : gmap string Params :=
  if no_verify args then delete VERIFICATION_FILTER f
  else <[VERIFICATION_FILTER :=
           {[ "min_level" :=
                VInt (value w (if only_verified args
                               then VERIFIED_TRUE else UNVERIFIED)) ]}]> f.

(** The registry without the listed identifiers. *)
Definition disabled (names : list string) (f : gmap string Params)
  : gmap string Params :=
  foldl (fun f name => delete name f) f names.

(** The identifiers of the disable list that the registry does not hold,
    in the order the warnings are given. *)
Definition redundant (names : list string) (f : gmap string Params)
  : list string :=
  elements (list_to_set names ∖ dom f : gset string).

(** A reference resolves when its post-validation returns. *)
Definition resolves (w : World) (path : string) : Prop :=
  _raise_if_custom_filter_path_is_invalid w path = Ok tt.

(** The registry with an entry of empty parameters for each listed
    reference. *)
Definition registered (paths : list string) (f : gmap string Params)
  : gmap string Params :=
  foldl (fun f path => <[path := ∅]> f) f paths.

(** The body of the loop over the custom filters. *)
Definition register_custom_filter (w : World) (item : string) : M unit :=
  lift (_raise_if_custom_filter_path_is_invalid w item) ;;
  set_filter item ∅.

(** The blocks of [parse_args] that come before the custom filters. *)
Definition policy_blocks (w : World) (args : Args) : M unit :=
  register_exclude_patterns args ;;
  initialize_optional_filters w args ;;
  apply_verification_policy w args ;;
  disable_listed_filters args.

(** Options that list, after an exclude pattern, a filter of a local
    file that resolves and a filter that the module
    [detect_secrets.filters.common] does not define. *)
Definition partly_resolving : Args := {|
  exclude_lines := None; exclude_files := Some ["\.lock$"];
  exclude_secrets := None;
  word_list_file := None; gibberish_model_file := None;
  gibberish_limit := None; huggingface_model := None; threshold := None;
  huggingface_token := None; no_verify := false; only_verified := false;
  disable_filter := None;
  custom_filter :=
    Some [["file://testing/custom_filters.py::is_invalid_secret"];
          ["detect_secrets.filters.common.no_such_filter"]]
|}.

(** The reference of the comment in [valid_looking_paths], written
    without the file scheme. *)
Definition schemeless : string :=
  "testing/custom_filters.py::is_invalid_secret".

(** Options that disable the verification and give the custom filters
    [items]. *)
Definition schemeless_options (items : option (list (list string)))
  : Args := {|
  exclude_lines := None; exclude_files := None; exclude_secrets := None;
  word_list_file := None; gibberish_model_file := None;
  gibberish_limit := None; huggingface_model := None; threshold := None;
  huggingface_token := None; no_verify := true; only_verified := false;
  disable_filter := None; custom_filter := items
|}.

(** [a] is not the character [c]. *)
Definition differs (c a : ascii) : bool := negb (Ascii.eqb a c).

(** [c.isascii()]: a character of ASCII, where a byte of the model is
    a character of Python. *)
Definition is_ascii (a : ascii) : bool := (PyStr.code a <? 128)%N.

(** A printable character of ASCII that [urlparse] does not treat as
    the start of a query or a fragment or as a bracket of a network
    location. *)
Definition symbol_char (a : ascii) : bool :=
  is_ascii a
  && negb (Urllib.c0_control_or_space a)
  && negb (Ascii.eqb a "?" || Ascii.eqb a "#" || Ascii.eqb a "["
           || Ascii.eqb a "]").

(** Such a character other than the colon. *)
Definition path_char (a : ascii) : bool := symbol_char a && differs ":" a.

(** Such a character other than the colon and the slash. *)
Definition dir_char (a : ascii) : bool := path_char a && differs "/" a.

(** The [urlparse] of the world is CPython's, which the reference model
    follows on text of ASCII without a square bracket. *)
Definition reference_urlparse (w : World) : Prop :=
  forall x,
    PyStr.forallb is_ascii x = true ->
    PyStr.contains "[" x || PyStr.contains "]" x = false ->
    urlparse w x = Urllib.urlparse x.

(** ** [detect_secrets/util/color.py] *)

Module Color.

(** What [supports_ansi_colors] reads from the process: the environment
    and whether the standard output is a terminal. *)
Record Terminal : Type := {
  environ : gmap string string;
  isatty : bool
}.

(** [os.getenv(name, dflt)]. *)
Definition getenv (t : Terminal) (name dflt : string) : string :=
  default dflt (environ t !! name).

Definition supports_ansi_colors (t : Terminal) : bool :=
  (negb (String.eqb (getenv t "CLICOLOR" "1") "0") && isatty t)
  || negb (String.eqb (getenv t "CLICOLOR_FORCE" "0") "0").

Inductive AnsiColor : Type :=
| RESET
| BOLD
| RED
| RED_BACKGROUND
| LIGHT_GREEN
| PURPLE.

(** [color.value]. *)
Definition value (color : AnsiColor) : string :=
  match color with
  | RESET => "[0m"
  | BOLD => "[1m"
  | RED => "[91m"
  | RED_BACKGROUND => "[41m"
  | LIGHT_GREEN => "[92m"
  | PURPLE => "[95m"
  end.

(** The escape character, written [\x1b] in the source. *)
Definition ESC : string := PyStr.chr 27.

Definition colorize (t : Terminal) (text : string) (color : AnsiColor)
  : string :=
  if negb (supports_ansi_colors t) then text
  else ESC +:+ value color +:+ text +:+ ESC +:+ value RESET.

End Color.

(** ** Vocabulary of the further properties *)

(** A character of ASCII other than the colon and the square
    brackets. *)
Definition plain_char (a : ascii) : bool :=
  is_ascii a && differs ":" a && differs "[" a && differs "]" a.

(** Such a character other than the dot. *)
Definition word_char (a : ascii) : bool := plain_char a && differs "." a.

(** A text that [urlparse] takes for a scheme when a colon follows it: a
    letter, then letters, digits and the characters [+-.]. *)
Definition scheme_name (s : string) : bool :=
  match s with
  | String a _ => PyStr.is_ascii_alpha a && PyStr.forallb Urllib.scheme_char s
  | EmptyString => false
  end.

(** A computation leaves a component of the state as it is, whatever
    its outcome. *)
Definition keeps {A X} (proj : State -> X) (m : M A) : Prop :=
  forall st, proj (m st).2 = proj st.

(** What the registry holds under [k]. *)
Definition entry (k : string) (st : State) : option Params :=
  filters st !! k.

(** The identifiers of the three exclude-pattern filters. *)
Definition regex_filters : list string :=
  ["detect_secrets.filters.regex.should_exclude_line";
   "detect_secrets.filters.regex.should_exclude_file";
   "detect_secrets.filters.regex.should_exclude_secret"].

(** Each exclude-pattern filter with the option that sets it. *)
Definition exclude_options (args : Args)
  : list (string * option (list string)) :=
  [("detect_secrets.filters.regex.should_exclude_line", exclude_lines args);
   ("detect_secrets.filters.regex.should_exclude_file", exclude_files args);
   ("detect_secrets.filters.regex.should_exclude_secret",
    exclude_secrets args)].

(** The identifiers the disable list names. *)
Definition disabled_names (args : Args) : list string :=
  concat (default [] (disable_filter args)).

(** The references the custom filter list names. *)
Definition custom_names (args : Args) : list string :=
  concat (default [] (custom_filter args)).

(** The [initialize] calls of a run in which each of them returns, in
    the order they are made. *)
Definition expected_calls (w : World) (args : Args) : list Call :=
  (if wordlist_is_feature_enabled w then
     match word_list_file args with
     | Some file =>
         if truthy file
         then [{| callee := "wordlist"; posargs := [VStr file];
                  kwargs := ∅ |}]
         else []
     | None => []
     end
   else [])
  ++ (if gibberish_is_feature_enabled w
      then [{| callee := "gibberish"; posargs := [];
               kwargs := gibberish_kwargs args |}]
      else [])
  ++ (if classifier_is_feature_ready w args
      then [{| callee := "classifier"; posargs := [];
               kwargs := classifier_kwargs args |}]
      else []).

(** ** Running the monad *)

Lemma bind_run {A B} (m : M A) (f : A -> M B) (st : State) :
  (m ≫= f) st =
  match m st with
  | (Ok a, st') => f a st'
  | (Raise e, st') => (Raise e, st')
  end.
Proof. reflexivity. Qed.

Lemma bind_ok {A B} (m : M A) (f : A -> M B) (st st' : State) (a : A) :
  m st = (Ok a, st') -> (m ≫= f) st = f a st'.
Proof. intros H. rewrite bind_run, H. reflexivity. Qed.

Lemma bind_raise {A B} (m : M A) (f : A -> M B) (st st' : State) (e : exn) :
  m st = (Raise e, st') -> (m ≫= f) st = (Raise e, st').
Proof. intros H. rewrite bind_run, H. reflexivity. Qed.

Lemma call_initialize_returns (w : World) (c : Call) (st : State) :
  initialize_returns w ->
  call_initialize w c st =
  (Ok tt,
   with_filters (initialize w c (filters st)).2
     (with_calls (calls st ++ [c]) st)).
Proof.
  intros Hret. unfold call_initialize.
  specialize (Hret c (filters st)).
  destruct (initialize w c (filters st)) as [r f]. simpl in *. by subst.
Qed.

(** ** Parameters given as zero or as the empty string *)

Lemma if_truthy_omitted {A} `{Truthy A} (o : option A) (body : A -> M unit) :
  if_truthy (omitted o) body = if_truthy o body.
Proof.
  unfold omitted, if_truthy, truthy at 1, truthy_option.
  destruct o as [a|]; [|reflexivity].
  destruct (truthy a) eqn:E; [|reflexivity]. by rewrite E.
Qed.

Lemma set_if_omitted {A} `{Truthy A} key (o : option A) inj (kw : Params) :
  set_if key (omitted o) inj kw = set_if key o inj kw.
Proof.
  unfold omitted, set_if, truthy at 1, truthy_option.
  destruct o as [a|]; [|reflexivity].
  destruct (truthy a) eqn:E; [|reflexivity]. by rewrite E.
Qed.

Lemma set_if_falsy {A} `{Truthy A} key (o : option A) inj (kw : Params) :
  truthy o = false -> set_if key o inj kw = kw.
Proof.
  unfold set_if, truthy at 1, truthy_option.
  destruct o as [a|]; [|reflexivity]. by intros ->.
Qed.

Lemma set_if_lookup_ne {A} `{Truthy A} key key' (o : option A) inj
    (kw : Params) :
  key <> key' -> set_if key o inj kw !! key' = kw !! key'.
Proof.
  intros Hne. unfold set_if.
  destruct o as [a|]; [|reflexivity].
  destruct (truthy a); [|reflexivity]. by rewrite lookup_insert_ne.
Qed.

Lemma gibberish_kwargs_without_falsy (args : Args) :
  gibberish_kwargs (without_falsy args) = gibberish_kwargs args.
Proof.
  unfold gibberish_kwargs. simpl. by rewrite !set_if_omitted.
Qed.

Lemma classifier_kwargs_without_falsy (args : Args) :
  classifier_kwargs (without_falsy args) = classifier_kwargs args.
Proof.
  unfold classifier_kwargs. simpl. by rewrite !set_if_omitted.
Qed.

(** Zero, negative zero and the empty string are falsy. *)
Lemma zero_and_empty_are_falsy :
  truthy (Some 0%float) = false /\
  truthy (Some (-0)%float) = false /\
  truthy (Some EmptyString) = false.
Proof. repeat split; reflexivity. Qed.

Lemma set_if_lookup_eq {A} `{Truthy A} key (o : option A) inj (kw : Params) :
  kw !! key = None -> set_if key o inj kw !! key = inj <$> omitted o.
Proof.
  intros Hkw. unfold set_if, omitted, truthy at 2, truthy_option.
  destruct o as [a|]; [|done].
  destruct (truthy a); [|done]. by rewrite lookup_insert_eq.
Qed.

(** C10. A parameter of an optional filter given as zero or as the empty
    string is handled as a parameter that was not given: the whole run
    is the run on the options without it, and the keyword arguments of
    the [initialize] calls hold the parameters that are truthy and no
    other.  The readiness test of the classifier reads the options, so
    it must not tell the two apart. *)
Theorem zero_or_empty_parameter_is_omitted
    (w : World) (args : Args) (st : State) :
  classifier_is_feature_ready w (without_falsy args)
  = classifier_is_feature_ready w args ->
  parse_args w args st = parse_args w (without_falsy args) st
  /\ gibberish_kwargs args !! "model_path"
     = VStr <$> omitted (gibberish_model_file args)
  /\ gibberish_kwargs args !! "limit"
     = VFloat <$> omitted (gibberish_limit args)
  /\ classifier_kwargs args !! "huggingface_model"
     = VStr <$> omitted (huggingface_model args)
  /\ classifier_kwargs args !! "threshold"
     = VFloat <$> omitted (threshold args)
  /\ classifier_kwargs args !! "huggingface_token"
     = VStr <$> omitted (huggingface_token args).
Proof.
  intros Hready. split.
  - unfold parse_args, initialize_optional_filters.
    rewrite Hready, gibberish_kwargs_without_falsy,
      classifier_kwargs_without_falsy.
    simpl word_list_file. by rewrite if_truthy_omitted.
  - unfold gibberish_kwargs, classifier_kwargs.
    repeat split.
    + rewrite set_if_lookup_ne by done. by apply set_if_lookup_eq.
    + apply set_if_lookup_eq. by rewrite set_if_lookup_ne.
    + rewrite !set_if_lookup_ne by done. by apply set_if_lookup_eq.
    + rewrite set_if_lookup_ne by done. apply set_if_lookup_eq.
      by rewrite set_if_lookup_ne.
    + apply set_if_lookup_eq. by rewrite !set_if_lookup_ne.
Qed.

(** A run with a gibberish limit and a classifier threshold of zero and
    an empty token. *)
Lemma zero_or_empty_parameter_is_omitted_witness :
  let args := {|
    exclude_lines := None; exclude_files := None; exclude_secrets := None;
    word_list_file := Some EmptyString; gibberish_model_file := None;
    gibberish_limit := Some 0%float; huggingface_model := Some "model";
    threshold := Some 0%float; huggingface_token := Some EmptyString;
    no_verify := false; only_verified := false;
    disable_filter := None; custom_filter := None |} in
  let w := Sample.world true false in
  classifier_is_feature_ready w (without_falsy args)
  = classifier_is_feature_ready w args
  /\ parse_args w args Sample.fresh
     = parse_args w (without_falsy args) Sample.fresh
  /\ gibberish_kwargs args !! "limit" = None
  /\ classifier_kwargs args !! "threshold" = None
  /\ classifier_kwargs args !! "huggingface_token" = None
  /\ classifier_kwargs args !! "huggingface_model" = Some (VStr "model").
Proof.
  intros args w.
  destruct (zero_or_empty_parameter_is_omitted w args Sample.fresh eq_refl)
    as (Hrun & _ & Hlimit & Hmodel & Hthreshold & Htoken).
  repeat split; assumption.
Defined.

(** ** The blocks of [parse_args], one by one *)

Lemma with_filters_id (st : State) : with_filters (filters st) st = st.
Proof. by destruct st. Qed.

Lemma if_truthy_set_filter_returns {A} `{Truthy A} (o : option A) name
    (params : A -> Params) (st : State) :
  exists f, if_truthy o (fun a => set_filter name (params a)) st
            = (Ok tt, with_filters f st).
Proof.
  unfold if_truthy. destruct o as [a|].
  - destruct (truthy a).
    + eexists. reflexivity.
    + exists (filters st). by rewrite with_filters_id.
  - exists (filters st). by rewrite with_filters_id.
Qed.

(** The exclude-pattern block never raises and writes the registry only. *)
Lemma register_exclude_patterns_returns (args : Args) (st : State) :
  exists f, register_exclude_patterns args st = (Ok tt, with_filters f st).
Proof.
  unfold register_exclude_patterns.
  destruct (if_truthy_set_filter_returns (exclude_lines args)
    "detect_secrets.filters.regex.should_exclude_line"
    (fun patterns => {[ "pattern" := VStrList patterns ]}) st) as [f1 H1].
  rewrite (bind_ok _ _ _ _ _ H1).
  destruct (if_truthy_set_filter_returns (exclude_files args)
    "detect_secrets.filters.regex.should_exclude_file"
    (fun patterns => {[ "pattern" := VStrList patterns ]})
    (with_filters f1 st)) as [f2 H2].
  rewrite (bind_ok _ _ _ _ _ H2).
  destruct (if_truthy_set_filter_returns (exclude_secrets args)
    "detect_secrets.filters.regex.should_exclude_secret"
    (fun patterns => {[ "pattern" := VStrList patterns ]})
    (with_filters f2 (with_filters f1 st))) as [f3 H3].
  rewrite H3. by exists f3.
Qed.

(** When the [initialize] functions return, the bootstrap block returns;
    it leaves the warnings alone and, when the classifier is ready, sets
    the worker count and the start method. *)
Lemma initialize_optional_filters_returns (w : World) (args : Args)
    (st : State) :
  initialize_returns w ->
  exists st1,
    initialize_optional_filters w args st = (Ok tt, st1)
    /\ warnings st1 = warnings st
    /\ num_cores st1 =
       (if classifier_is_feature_ready w args
        then Some (computed_num_cores w) else num_cores st)
    /\ start_method st1 =
       (if classifier_is_feature_ready w args
        then Some "spawn" else start_method st).
Proof.
  intros Hret. unfold initialize_optional_filters.
  assert (Hword : exists st1,
    (if wordlist_is_feature_enabled w then
       if_truthy (word_list_file args) (fun file =>
         call_initialize w
           {| callee := "wordlist"; posargs := [VStr file]; kwargs := ∅ |})
     else pass) st = (Ok tt, st1)
    /\ warnings st1 = warnings st /\ num_cores st1 = num_cores st
    /\ start_method st1 = start_method st).
  { destruct (wordlist_is_feature_enabled w); [|by exists st].
    unfold if_truthy. destruct (word_list_file args) as [file|]; [|by exists st].
    destruct (truthy file); [|by exists st].
    rewrite call_initialize_returns by done. by eexists. }
  destruct Hword as (st1 & H1 & Hw1 & Hn1 & Hs1).
  rewrite (bind_ok _ _ _ _ _ H1).
  assert (Hgib : exists st2,
    (if gibberish_is_feature_enabled w then
       call_initialize w
         {| callee := "gibberish"; posargs := [];
            kwargs := gibberish_kwargs args |}
     else pass) st1 = (Ok tt, st2)
    /\ warnings st2 = warnings st1 /\ num_cores st2 = num_cores st1
    /\ start_method st2 = start_method st1).
  { destruct (gibberish_is_feature_enabled w); [|by exists st1].
    rewrite call_initialize_returns by done. by eexists. }
  destruct Hgib as (st2 & H2 & Hw2 & Hn2 & Hs2).
  rewrite (bind_ok _ _ _ _ _ H2).
  destruct (classifier_is_feature_ready w args).
  - rewrite !bind_run. rewrite call_initialize_returns by done.
    eexists. split; [reflexivity|]. simpl. by rewrite Hw2, Hw1.
  - exists st2. by rewrite Hw2, Hw1, Hn2, Hn1, Hs2, Hs1.
Qed.

Lemma apply_verification_policy_run (w : World) (args : Args) (st : State) :
  apply_verification_policy w args st
  = (Ok tt, with_filters (verification_policy w args (filters st)) st).
Proof.
  unfold apply_verification_policy, verification_policy.
  by destruct (no_verify args).
Qed.

Lemma bool_decide_elem_of_head (k : string) (l : list string) :
  bool_decide (k ∈ k :: l) = true.
Proof. apply bool_decide_eq_true_2, elem_of_cons. by left. Qed.

Lemma bool_decide_elem_of_tail (k n : string) (l : list string) :
  k <> n -> bool_decide (k ∈ n :: l) = bool_decide (k ∈ l).
Proof.
  intros Hne. apply bool_decide_ext. rewrite elem_of_cons. split.
  - intros [Heq|Hin]; [by destruct Hne|exact Hin].
  - intros Hin. by right.
Qed.

Lemma disabled_lookup (names : list string) (f : gmap string Params)
    (k : string) :
  disabled names f !! k = if bool_decide (k ∈ names) then None else f !! k.
Proof.
  unfold disabled. revert f. induction names as [|n names IH]; intros f.
  - reflexivity.
  - cbn [foldl]. rewrite IH. destruct (decide (k = n)) as [->|Hne].
    + rewrite lookup_delete_eq, bool_decide_elem_of_head.
      by destruct (bool_decide (n ∈ names)).
    + by rewrite lookup_delete_ne, bool_decide_elem_of_tail.
Qed.

Lemma for_each_log_warning {A} (l : list A) (message : A -> string)
    (st : State) :
  for_each l (fun x => log_warning (message x)) st
  = (Ok tt, with_warnings (warnings st ++ map message l) st).
Proof.
  revert st. induction l as [|x l IH]; intros st.
  - simpl. unfold pass. rewrite app_nil_r. by destruct st.
  - simpl. rewrite bind_run. unfold log_warning at 1. rewrite IH. simpl.
    by rewrite <- app_assoc.
Qed.

Lemma disable_listed_filters_run (args : Args) (st : State) :
  disable_listed_filters args st
  = match disable_filter args with
    | Some (item :: items) =>
        let names := concat (item :: items) in
        (Ok tt,
         with_filters (disabled names (filters st))
           (with_warnings
              (warnings st
               ++ map redundant_warning (redundant names (filters st))) st))
    | _ => (Ok tt, st)
    end.
Proof.
  unfold disable_listed_filters, if_truthy.
  destruct (disable_filter args) as [[|item items]|]; try reflexivity.
  cbn [truthy truthy_list]. rewrite bind_run, for_each_log_warning.
  reflexivity.
Qed.

Lemma registered_lookup (paths : list string) (f : gmap string Params)
    (k : string) :
  registered paths f !! k = if bool_decide (k ∈ paths) then Some ∅ else f !! k.
Proof.
  unfold registered. revert f. induction paths as [|p paths IH]; intros f.
  - reflexivity.
  - cbn [foldl]. rewrite IH. destruct (decide (k = p)) as [->|Hne].
    + rewrite lookup_insert_eq, bool_decide_elem_of_head.
      by destruct (bool_decide (p ∈ paths)).
    + by rewrite lookup_insert_ne, bool_decide_elem_of_tail.
Qed.

Lemma registered_app (l1 l2 : list string) (f : gmap string Params) :
  registered (l1 ++ l2) f = registered l2 (registered l1 f).
Proof. unfold registered. apply foldl_app. Qed.

Lemma register_custom_filters_loop (w : World) (args : Args) :
  register_custom_filters w args
  = if_truthy (custom_filter args) (fun items =>
      for_each (concat items) (register_custom_filter w)).
Proof. reflexivity. Qed.

(** The loop stops at the first reference that does not resolve; the
    references before it are registered. *)
Lemma for_each_register_stops (w : World) (pre post : list string)
    (bad : string) (e : exn) (st : State) :
  Forall (resolves w) pre ->
  _raise_if_custom_filter_path_is_invalid w bad = Raise e ->
  for_each (pre ++ bad :: post) (register_custom_filter w) st
  = (Raise e, with_filters (registered pre (filters st)) st).
Proof.
  intros Hpre Hbad. revert st.
  induction Hpre as [|p pre Hp Hpre IH]; intros st.
  - simpl. rewrite bind_run. unfold register_custom_filter.
    rewrite bind_run. unfold lift. rewrite Hbad.
    by rewrite with_filters_id.
  - simpl. rewrite bind_run. unfold register_custom_filter at 1.
    rewrite bind_run. unfold lift at 1. rewrite Hp.
    unfold set_filter at 1. rewrite IH. reflexivity.
Qed.

(** When every reference resolves, all of them are registered. *)
Lemma for_each_register_all (w : World) (paths : list string) (st : State) :
  Forall (resolves w) paths ->
  for_each paths (register_custom_filter w) st
  = (Ok tt, with_filters (registered paths (filters st)) st).
Proof.
  intros Hall. revert st.
  induction Hall as [|p paths Hp Hall IH]; intros st.
  - simpl. unfold pass. by rewrite with_filters_id.
  - simpl. rewrite bind_run. unfold register_custom_filter at 1.
    rewrite bind_run. unfold lift at 1. rewrite Hp.
    unfold set_filter at 1. rewrite IH. reflexivity.
Qed.

(** Whatever the outcome, the loop has registered some of the listed
    references and touched nothing else. *)
Lemma for_each_register_some (w : World) (paths : list string) (st : State) :
  exists r done_,
    done_ ⊆ paths
    /\ for_each paths (register_custom_filter w) st
       = (r, with_filters (registered done_ (filters st)) st).
Proof.
  revert st. induction paths as [|p paths IH]; intros st.
  - exists (Ok tt), []. split; [done|]. simpl. unfold pass.
    change (registered [] (filters st)) with (filters st).
    by rewrite with_filters_id.
  - simpl. rewrite bind_run. unfold register_custom_filter at 1.
    rewrite bind_run. unfold lift at 1.
    destruct (_raise_if_custom_filter_path_is_invalid w p) as [[]|e].
    + unfold set_filter at 1.
      destruct (IH (with_filters (<[p:=∅]> (filters st)) st))
        as (r & done_ & Hsub & Hrun).
      exists r, (p :: done_). split; [by apply list_subseteq_skip|].
      by rewrite Hrun.
    + exists (Raise e), []. split; [apply list_subseteq_nil|].
      change (registered [] (filters st)) with (filters st).
      by rewrite with_filters_id.
Qed.

Lemma register_custom_filters_some (w : World) (args : Args) (st : State) :
  exists r done_,
    done_ ⊆ concat (default [] (custom_filter args))
    /\ register_custom_filters w args st
       = (r, with_filters (registered done_ (filters st)) st).
Proof.
  rewrite register_custom_filters_loop. unfold if_truthy.
  destruct (custom_filter args) as [[|item items]|].
  - exists (Ok tt), []. split; [done|].
    change (registered [] (filters st)) with (filters st).
    by rewrite with_filters_id.
  - apply for_each_register_some.
  - exists (Ok tt), []. split; [done|].
    change (registered [] (filters st)) with (filters st).
    by rewrite with_filters_id.
Qed.

Lemma parse_args_policy_then_custom (w : World) (args : Args) (st : State) :
  parse_args w args st
  = (policy_blocks w args ;; register_custom_filters w args) st.
Proof.
  unfold parse_args, policy_blocks. rewrite !bind_run.
  destruct (register_exclude_patterns args st) as [[[]|e] st1]; [|done].
  rewrite !bind_run.
  destruct (initialize_optional_filters w args st1) as [[[]|e] st2]; [|done].
  rewrite !bind_run.
  destruct (apply_verification_policy w args st2) as [[[]|e] st3]; [|done].
  rewrite !bind_run.
  by destruct (disable_listed_filters args st3) as [[[]|e] st4].
Qed.

(** The states a run goes through when the [initialize] functions
    return: after the bootstrap, [st1]; after the verification block,
    [st2]; after the disable list, [st3], where the custom filters
    start. *)
Lemma policy_blocks_returns (w : World) (args : Args) (st : State) :
  initialize_returns w ->
  exists st1 st2 st3,
    (register_exclude_patterns args ;; initialize_optional_filters w args) st
    = (Ok tt, st1)
    /\ num_cores st1 =
       (if classifier_is_feature_ready w args
        then Some (computed_num_cores w) else num_cores st)
    /\ warnings st1 = warnings st
    /\ st2 = with_filters (verification_policy w args (filters st1)) st1
    /\ disable_listed_filters args st2 = (Ok tt, st3)
    /\ policy_blocks w args st = (Ok tt, st3).
Proof.
  intros Hret.
  destruct (register_exclude_patterns_returns args st) as [f0 H0].
  destruct (initialize_optional_filters_returns w args (with_filters f0 st)
              Hret) as (st1 & H1 & Hw1 & Hn1 & _).
  pose (st2 := with_filters (verification_policy w args (filters st1)) st1).
  assert (Hd : exists st3, disable_listed_filters args st2 = (Ok tt, st3)).
  { rewrite disable_listed_filters_run.
    destruct (disable_filter args) as [[|item items]|]; by eexists. }
  destruct Hd as [st3 H3].
  exists st1, st2, st3. repeat split; try done.
  - by rewrite (bind_ok _ _ _ _ _ H0).
  - unfold policy_blocks.
    rewrite (bind_ok _ _ _ _ _ H0), (bind_ok _ _ _ _ _ H1).
    rewrite (bind_ok _ _ _ _ _ (apply_verification_policy_run w args st1)).
    exact H3.
Qed.

(** The run of [parse_args] when the [initialize] functions return: the
    policy blocks lead to a state [st3], and the outcome is that of the
    custom filters from there, which leaves everything but the registry
    as it is in [st3]. *)
Lemma parse_args_run (w : World) (args : Args) (st : State) :
  initialize_returns w ->
  exists st1 st3 r done_,
    (register_exclude_patterns args ;; initialize_optional_filters w args) st
    = (Ok tt, st1)
    /\ num_cores st1 =
       (if classifier_is_feature_ready w args
        then Some (computed_num_cores w) else num_cores st)
    /\ warnings st1 = warnings st
    /\ disable_listed_filters args
         (with_filters (verification_policy w args (filters st1)) st1)
       = (Ok tt, st3)
    /\ policy_blocks w args st = (Ok tt, st3)
    /\ done_ ⊆ concat (default [] (custom_filter args))
    /\ register_custom_filters w args st3
       = (r, with_filters (registered done_ (filters st3)) st3)
    /\ parse_args w args st
       = (r, with_filters (registered done_ (filters st3)) st3).
Proof.
  intros Hret.
  destruct (policy_blocks_returns w args st Hret)
    as (st1 & st2 & st3 & H1 & Hn1 & Hw1 & -> & H3 & Hpol).
  destruct (register_custom_filters_some w args st3)
    as (r & done_ & Hsub & Hrun).
  exists st1, st3, r, done_. repeat split; try done.
  by rewrite parse_args_policy_then_custom, (bind_ok _ _ _ _ _ Hpol).
Qed.

(** ** The worker count of the classifier *)

(** C9. When the classifier filter is ready, the worker count left in
    [args.num_cores] is 3 when an accelerator is available and 1
    otherwise, in a run whose [initialize] calls return. *)
Theorem classifier_worker_count (w : World) (args : Args) (st : State) :
  initialize_returns w ->
  classifier_is_feature_ready w args = true ->
  num_cores (parse_args w args st).2
  = Some (if cuda_is_available w then [3%Z] else [1%Z]).
Proof.
  intros Hret Hready.
  destruct (parse_args_run w args st Hret)
    as (st1 & st3 & r & done_ & _ & Hn1 & _ & H3 & _ & _ & _ & ->).
  rewrite Hready in Hn1. simpl.
  rewrite disable_listed_filters_run in H3.
  destruct (disable_filter args) as [[|item items]|];
    inversion H3; subst st3; exact Hn1.
Qed.

(** With and without an accelerator. *)
Lemma classifier_worker_count_witness :
  initialize_returns (Sample.world true true)
  /\ classifier_is_feature_ready (Sample.world true true) Sample.no_options
     = true
  /\ num_cores
       (parse_args (Sample.world true true) Sample.no_options Sample.fresh).2
     = Some [3%Z]
  /\ num_cores
       (parse_args (Sample.world true false) Sample.no_options Sample.fresh).2
     = Some [1%Z].
Proof.
  assert (Hret : forall cuda, initialize_returns (Sample.world true cuda))
    by (intros cuda c f; reflexivity).
  split; [apply Hret|]. split; [reflexivity|]. split.
  - exact (classifier_worker_count (Sample.world true true) Sample.no_options
             Sample.fresh (Hret true) eq_refl).
  - exact (classifier_worker_count (Sample.world true false) Sample.no_options
             Sample.fresh (Hret false) eq_refl).
Defined.

(** ** The verification policy *)

(** At the end of a run whose [initialize] calls return, the
    verification filter is as the verification block has left it,
    unless the disable list or the custom filters name it. *)
Lemma verification_filter_kept_to_the_end
    (w : World) (args : Args) (st : State) :
  initialize_returns w ->
  VERIFICATION_FILTER ∉ concat (default [] (disable_filter args)) ->
  VERIFICATION_FILTER ∉ concat (default [] (custom_filter args)) ->
  filters (parse_args w args st).2 !! VERIFICATION_FILTER
  = if no_verify args then None
    else Some {[ "min_level" :=
                   VInt (value w (if only_verified args
                                  then VERIFIED_TRUE else UNVERIFIED)) ]}.
Proof.
  intros Hret Hdis Hcus.
  destruct (parse_args_run w args st Hret)
    as (st1 & st3 & r & done_ & _ & _ & _ & H3 & _ & Hsub & _ & ->).
  simpl. rewrite registered_lookup.
  rewrite bool_decide_eq_false_2 by (intros Hin; apply Hcus, Hsub, Hin).
  rewrite disable_listed_filters_run in H3.
  assert (Hst3 : filters st3 !! VERIFICATION_FILTER
                 = verification_policy w args (filters st1)
                   !! VERIFICATION_FILTER).
  { destruct (disable_filter args) as [[|item items]|];
      inversion H3; subst st3; try done.
    simpl filters. rewrite disabled_lookup.
    by rewrite bool_decide_eq_false_2 by exact Hdis. }
  rewrite Hst3. unfold verification_policy.
  destruct (no_verify args).
  - apply lookup_delete_eq.
  - apply lookup_insert_eq.
Qed.

(** Where [parse_args] runs the verification block: after the exclude
    patterns and the optional filters, when these return, and before the
    disable list and the custom filters, which start from the state the
    block leaves. *)
Lemma parse_args_through_verification (w : World) (args : Args) (st : State) :
  parse_args w args st
  = match (register_exclude_patterns args ;;
           initialize_optional_filters w args) st with
    | (Ok _, st1) =>
        (disable_listed_filters args ;; register_custom_filters w args)
          (apply_verification_policy w args st1).2
    | (Raise e, st1) => (Raise e, st1)
    end.
Proof.
  unfold parse_args. rewrite !bind_run.
  destruct (register_exclude_patterns args st) as [[[]|e] st0]; [|done].
  rewrite !bind_run.
  destruct (initialize_optional_filters w args st0) as [[[]|e] st1]; [|done].
  by rewrite !bind_run, apply_verification_policy_run.
Qed.

(** C4. For every combination of the two flags and every state in which
    the verification block is run, the block returns.  When verification
    is not disabled, it leaves the verification filter registered with
    [min_level] at the value of VERIFIED_TRUE under only-verified and of
    UNVERIFIED otherwise.  When verification is disabled, it leaves the
    filter absent from the registry, whatever only-verified says: the
    filter is removed when the registry held it, and a registry that did
    not hold it is left as it was.  No other entry changes.
    [parse_args] runs the block in the state that the exclude patterns
    and the optional filters leave, and goes on from the state the block
    leaves. *)
Theorem verification_filter_follows_flags
    (w : World) (args : Args) (st : State) :
  (let out := apply_verification_policy w args st in
   out.1 = Ok tt
   /\ filters out.2 !! VERIFICATION_FILTER
      = (if no_verify args then None
         else Some {[ "min_level" :=
                        VInt (value w (if only_verified args
                                       then VERIFIED_TRUE
                                       else UNVERIFIED)) ]})
   /\ (forall k, k <> VERIFICATION_FILTER ->
         filters out.2 !! k = filters st !! k)
   /\ (no_verify args = true ->
       filters st !! VERIFICATION_FILTER = None -> out.2 = st))
  /\ parse_args w args st
     = match (register_exclude_patterns args ;;
              initialize_optional_filters w args) st with
       | (Ok _, st1) =>
           (disable_listed_filters args ;; register_custom_filters w args)
             (apply_verification_policy w args st1).2
       | (Raise e, st1) => (Raise e, st1)
       end.
Proof.
  split; [|apply parse_args_through_verification].
  cbv zeta. rewrite apply_verification_policy_run.
  cbn [fst snd filters with_filters]. unfold verification_policy.
  split_and!.
  - reflexivity.
  - destruct (no_verify args).
    + apply lookup_delete_eq.
    + apply lookup_insert_eq.
  - intros k Hk. destruct (no_verify args).
    + by rewrite lookup_delete_ne.
    + by rewrite lookup_insert_ne.
  - intros -> Habsent. rewrite (delete_id _ _ Habsent).
    apply with_filters_id.
Qed.

(** The four combinations of the two flags, on a registry that holds
    the verification filter from an earlier run, and the flag of
    no-verify on a registry that does not hold it. *)
Lemma verification_filter_follows_flags_witness :
  let w := Sample.world false false in
  let flags nv ov := {|
    exclude_lines := None; exclude_files := None; exclude_secrets := None;
    word_list_file := None; gibberish_model_file := None;
    gibberish_limit := None; huggingface_model := None; threshold := None;
    huggingface_token := None; no_verify := nv; only_verified := ov;
    disable_filter := None; custom_filter := None |} in
  let st := with_filters {[ VERIFICATION_FILTER := ∅ ]} Sample.fresh in
  let after nv ov s := (apply_verification_policy w (flags nv ov) s).2 in
  filters (after false false st) !! VERIFICATION_FILTER
  = Some {[ "min_level" := VInt (Sample.rank UNVERIFIED) ]}
  /\ filters (after false true st) !! VERIFICATION_FILTER
     = Some {[ "min_level" := VInt (Sample.rank VERIFIED_TRUE) ]}
  /\ filters (after true false st) !! VERIFICATION_FILTER = None
  /\ filters (after true true st) !! VERIFICATION_FILTER = None
  /\ after true true Sample.fresh = Sample.fresh.
Proof.
  intros w flags st after.
  split; [|split; [|split; [|split]]].
  - exact (proj1 (proj2 (proj1
             (verification_filter_follows_flags w (flags false false) st)))).
  - exact (proj1 (proj2 (proj1
             (verification_filter_follows_flags w (flags false true) st)))).
  - exact (proj1 (proj2 (proj1
             (verification_filter_follows_flags w (flags true false) st)))).
  - exact (proj1 (proj2 (proj1
             (verification_filter_follows_flags w (flags true true) st)))).
  - exact (proj2 (proj2 (proj2 (proj1
             (verification_filter_follows_flags w (flags true true)
                Sample.fresh)))) eq_refl eq_refl).
Defined.

(** ** The disable list *)

Lemma append_char_inj (c : ascii) (s1 s2 : string) :
  s1 +:+ String c EmptyString = s2 +:+ String c EmptyString -> s1 = s2.
Proof.
  revert s2. induction s1 as [|a s1 IH]; intros [|b s2] Heq; simpl in Heq.
  - reflexivity.
  - injection Heq as _ Heq. destruct s2; discriminate.
  - injection Heq as _ Heq. destruct s1; discriminate.
  - injection Heq as -> Heq. f_equal. by apply IH.
Qed.

(** Two identifiers have two warnings. *)
#[global] Instance redundant_warning_inj : Inj (=) (=) redundant_warning.
Proof.
  intros n1 n2 Heq. unfold redundant_warning in Heq.
  apply (inj (String.append _)) in Heq.
  apply (inj (String.append _)) in Heq.
  by apply append_char_inj in Heq.
Qed.

Lemma elem_of_redundant (names : list string) (f : gmap string Params)
    (name : string) :
  name ∈ redundant names f <-> name ∈ names /\ f !! name = None.
Proof.
  unfold redundant.
  rewrite elem_of_elements, elem_of_difference, elem_of_list_to_set,
    elem_of_dom, <- eq_None_not_Some.
  done.
Qed.

Lemma NoDup_redundant (names : list string) (f : gmap string Params) :
  NoDup (redundant names f).
Proof. apply NoDup_elements. Qed.

(** C8. In a run whose [initialize] calls return, let [st2] be the state
    in which the disable list is processed.  The processing returns and
    the run goes on with the custom filters.  It adds warnings that are
    pairwise different, one for each listed identifier that the registry
    of [st2] does not hold and none for the others, and it leaves no
    listed identifier in the registry. *)
Theorem redundant_disable_warns_once
    (w : World) (args : Args) (st : State) (items : list (list string)) :
  initialize_returns w ->
  disable_filter args = Some items ->
  exists st2 st3 new,
    (register_exclude_patterns args ;; initialize_optional_filters w args ;;
     apply_verification_policy w args) st = (Ok tt, st2)
    /\ disable_listed_filters args st2 = (Ok tt, st3)
    /\ parse_args w args st = register_custom_filters w args st3
    /\ warnings st3 = (warnings st2 ++ new)%list
    /\ NoDup new
    /\ (forall name,
          redundant_warning name ∈ new
          <-> name ∈ concat items /\ filters st2 !! name = None)
    /\ (forall name, name ∈ concat items -> filters st3 !! name = None).
Proof.
  intros Hret Hitems.
  destruct (policy_blocks_returns w args st Hret)
    as (st1 & st2 & st3 & H1 & _ & _ & Hst2 & H3 & Hpol).
  exists st2, st3.
  assert (H2 : (register_exclude_patterns args ;;
                initialize_optional_filters w args ;;
                apply_verification_policy w args) st = (Ok tt, st2)).
  { destruct (register_exclude_patterns_returns args st) as [f0 H0].
    rewrite (bind_ok _ _ _ _ _ H0) in H1. rewrite (bind_ok _ _ _ _ _ H0).
    rewrite (bind_ok _ _ _ _ _ H1), apply_verification_policy_run.
    by rewrite Hst2. }
  assert (Hgo : parse_args w args st = register_custom_filters w args st3).
  { by rewrite parse_args_policy_then_custom, (bind_ok _ _ _ _ _ Hpol). }
  rewrite disable_listed_filters_run, Hitems in H3.
  destruct items as [|item items].
  - injection H3 as <-. exists []. split_and!; try done.
    + by rewrite disable_listed_filters_run, Hitems.
    + by rewrite app_nil_r.
    + constructor.
    + intros name. split.
      * intros Hin. by apply elem_of_nil in Hin.
      * intros [Hin _]. by apply elem_of_nil in Hin.
    + intros name Hin. by apply elem_of_nil in Hin.
  - cbv zeta in H3. injection H3 as <-.
    exists (map redundant_warning
              (redundant (concat (item :: items)) (filters st2))).
    split_and!; try done.
    + by rewrite disable_listed_filters_run, Hitems.
    + apply (NoDup_fmap_2 _), NoDup_redundant.
    + intros name. rewrite <- elem_of_redundant.
      apply (list_elem_of_fmap_inj redundant_warning).
    + intros name Hin. simpl filters. rewrite disabled_lookup.
      by rewrite bool_decide_eq_true_2.
Qed.

(** A registry that holds the word-list filter; the list names it twice
    and names a filter that is not there twice. *)
Lemma redundant_disable_warns_once_witness :
  let w := Sample.world false false in
  let args := {|
    exclude_lines := None; exclude_files := None; exclude_secrets := None;
    word_list_file := None; gibberish_model_file := None;
    gibberish_limit := None; huggingface_model := None; threshold := None;
    huggingface_token := None; no_verify := false; only_verified := false;
    disable_filter := Some [["wordlist"; "heuristic"]; ["heuristic"];
                            ["wordlist"]];
    custom_filter := None |} in
  let st := with_filters {[ "wordlist" := ∅ ]} Sample.fresh in
  initialize_returns w
  /\ disable_filter args
     = Some [["wordlist"; "heuristic"]; ["heuristic"]; ["wordlist"]]
  /\ exists st2 st3 new,
       (register_exclude_patterns args ;; initialize_optional_filters w args ;;
        apply_verification_policy w args) st = (Ok tt, st2)
       /\ disable_listed_filters args st2 = (Ok tt, st3)
       /\ parse_args w args st = register_custom_filters w args st3
       /\ warnings st3 = (warnings st2 ++ new)%list
       /\ NoDup new
       /\ (forall name,
             redundant_warning name ∈ new
             <-> name ∈ ["wordlist"; "heuristic"; "heuristic"; "wordlist"]
                 /\ filters st2 !! name = None)
       /\ (forall name,
             name ∈ ["wordlist"; "heuristic"; "heuristic"; "wordlist"] ->
             filters st3 !! name = None).
Proof.
  intros w args st.
  assert (Hret : initialize_returns w) by (intros c f; reflexivity).
  split; [exact Hret|]. split; [reflexivity|].
  exact (redundant_disable_warns_once w args st _ Hret eq_refl).
Defined.

(** What the run of the witness logs: one warning, for the filter that
    is not in the registry. *)
Example redundant_disable_run :
  let w := Sample.world false false in
  let args := {|
    exclude_lines := None; exclude_files := None; exclude_secrets := None;
    word_list_file := None; gibberish_model_file := None;
    gibberish_limit := None; huggingface_model := None; threshold := None;
    huggingface_token := None; no_verify := false; only_verified := false;
    disable_filter := Some [["wordlist"; "heuristic"]; ["heuristic"];
                            ["wordlist"]];
    custom_filter := None |} in
  let st := with_filters {[ "wordlist" := ∅ ]} Sample.fresh in
  (parse_args w args st).1 = Ok tt
  /\ warnings (parse_args w args st).2 = [redundant_warning "heuristic"]
  /\ filters (parse_args w args st).2 !! "wordlist" = None.
Proof. vm_compute. repeat split. Qed.

(** ** Registration of the custom filters *)

(** C1, as the specification states it, fails: the second reference does
    not resolve and the run ends with its error, while the registry,
    empty before, holds the exclude pattern, the verification filter and
    the custom filter listed first. *)
Lemma failed_resolution_leaves_partial_registry :
  let w := Sample.world false false in
  let out := parse_args w partly_resolving Sample.fresh in
  out.1 = Raise (ArgumentTypeError
                   ("No filter function named `no_such_filter` found in "
                    +:+ PyStr.dq +:+ "detect_secrets.filters.common"
                    +:+ PyStr.dq +:+ "."))
  /\ _raise_if_custom_filter_path_is_invalid w
       "detect_secrets.filters.common.no_such_filter" = out.1
  /\ filters Sample.fresh = ∅
  /\ filters out.2 <> filters Sample.fresh
  /\ filters out.2 !! "file://testing/custom_filters.py::is_invalid_secret"
     = Some ∅
  /\ filters out.2 !! "detect_secrets.filters.regex.should_exclude_file"
     = Some {[ "pattern" := VStrList ["\.lock$"] ]}
  /\ filters out.2 !! VERIFICATION_FILTER
     = Some {[ "min_level" := VInt 1 ]}.
Proof.
  cbv zeta. split_and!; try (vm_compute; reflexivity).
  intros Heq.
  apply (f_equal (fun f => f !! VERIFICATION_FILTER)) in Heq.
  vm_compute in Heq. discriminate.
Qed.

(** C1, amended.  When the custom filters [pre] resolve and the one
    listed next does not, a run whose [initialize] calls return ends
    with the error of that one, in the state [st3] that the earlier
    blocks have left with an entry of empty parameters added for each
    filter of [pre]: nothing is registered for the failing filter and
    the ones after it, unless [st3] or [pre] holds them already. *)
Theorem failed_resolution_keeps_earlier_writes
    (w : World) (args : Args) (st : State) (items : list (list string))
    (pre post : list string) (bad : string) (e : exn) :
  initialize_returns w ->
  custom_filter args = Some items ->
  concat items = (pre ++ bad :: post)%list ->
  Forall (resolves w) pre ->
  _raise_if_custom_filter_path_is_invalid w bad = Raise e ->
  let st3 := (policy_blocks w args st).2 in
  parse_args w args st
  = (Raise e, with_filters (registered pre (filters st3)) st3)
  /\ forall k,
       filters (parse_args w args st).2 !! k
       = if bool_decide (k ∈ pre) then Some ∅ else filters st3 !! k.
Proof.
  intros Hret Hitems Hconcat Hpre Hbad st3.
  assert (Hrun : parse_args w args st
                 = (Raise e, with_filters (registered pre (filters st3)) st3)).
  { destruct (policy_blocks_returns w args st Hret)
      as (st1 & st2 & st3' & _ & _ & _ & _ & _ & Hpol).
    subst st3. rewrite parse_args_policy_then_custom.
    rewrite (bind_ok _ _ _ _ _ Hpol), Hpol. cbn [snd].
    rewrite register_custom_filters_loop, Hitems. unfold if_truthy.
    destruct items as [|item items].
    { destruct pre; discriminate. }
    cbn [truthy truthy_list]. rewrite Hconcat.
    by apply for_each_register_stops. }
  split; [exact Hrun|].
  intros k. rewrite Hrun. cbn [snd]. simpl filters.
  apply registered_lookup.
Qed.

(** The run of [partly_resolving]. *)
Lemma failed_resolution_keeps_earlier_writes_witness :
  let w := Sample.world false false in
  let good := "file://testing/custom_filters.py::is_invalid_secret" in
  let bad := "detect_secrets.filters.common.no_such_filter" in
  let e := ArgumentTypeError
             ("No filter function named `no_such_filter` found in "
              +:+ PyStr.dq +:+ "detect_secrets.filters.common"
              +:+ PyStr.dq +:+ ".") in
  let st3 := (policy_blocks w partly_resolving Sample.fresh).2 in
  initialize_returns w
  /\ custom_filter partly_resolving = Some [[good]; [bad]]
  /\ concat [[good]; [bad]] = ([good] ++ bad :: [])%list
  /\ Forall (resolves w) [good]
  /\ _raise_if_custom_filter_path_is_invalid w bad = Raise e
  /\ parse_args w partly_resolving Sample.fresh
     = (Raise e, with_filters (registered [good] (filters st3)) st3)
  /\ forall k,
       filters (parse_args w partly_resolving Sample.fresh).2 !! k
       = if bool_decide (k ∈ [good]) then Some ∅ else filters st3 !! k.
Proof.
  intros w good bad e st3.
  assert (Hret : initialize_returns w) by (intros c f; reflexivity).
  assert (Hgood : Forall (resolves w) [good])
    by (repeat constructor; vm_compute; reflexivity).
  assert (Hbad : _raise_if_custom_filter_path_is_invalid w bad = Raise e)
    by (vm_compute; reflexivity).
  split; [exact Hret|]. split; [reflexivity|]. split; [reflexivity|].
  split; [exact Hgood|]. split; [exact Hbad|].
  exact (failed_resolution_keeps_earlier_writes w partly_resolving
           Sample.fresh [[good]; [bad]] [good] [] bad e
           Hret eq_refl eq_refl Hgood Hbad).
Defined.

(** ** The key of a custom filter *)

(** What [valid_looking_paths] returns when it returns: the reference
    itself, or the reference behind the file scheme when it has no
    scheme and holds the delimiter. *)
Lemma valid_looking_paths_returned (w : World) (raw path : string)
    (probes : list string) :
  valid_looking_paths w raw = (Ok path, probes) ->
  exists parts,
    urlparse w raw = Ok parts
    /\ path = if negb (truthy (Urllib.scheme parts))
                 && PyStr.contains "::" raw
              then FILE_SCHEME +:+ raw else raw.
Proof.
  unfold valid_looking_paths.
  destruct (urlparse w raw) as [parts|e]; [|discriminate].
  intros Hrun. exists parts. split; [reflexivity|].
  destruct (negb (truthy (Urllib.scheme parts)) && PyStr.contains "::" raw).
  - destruct (urlparse w (FILE_SCHEME +:+ raw)) as [parts'|e];
      [|discriminate].
    repeat match type of Hrun with
           | (if ?c then _ else _) = _ => destruct c
           end; congruence.
  - repeat match type of Hrun with
           | (if ?c then _ else _) = _ => destruct c
           end; congruence.
Qed.

Lemma collect_filter_option_returned (w : World) (raws : list string)
    (items : list (list string)) :
  collect_filter_option w raws = Ok items ->
  forall raw, raw ∈ raws ->
    exists parts,
      urlparse w raw = Ok parts
      /\ (if negb (truthy (Urllib.scheme parts)) && PyStr.contains "::" raw
          then FILE_SCHEME +:+ raw else raw) ∈ concat items.
Proof.
  revert items. induction raws as [|raw0 raws IH]; intros items Hrun raw Hin.
  - by apply elem_of_nil in Hin.
  - simpl in Hrun.
    destruct (valid_looking_paths w raw0) as [[path|e] probes] eqn:Hvalid;
      [|discriminate].
    simpl in Hrun.
    destruct (collect_filter_option w raws) as [items'|e]; [|discriminate].
    injection Hrun as <-.
    apply elem_of_cons in Hin as [->|Hin].
    + destruct (valid_looking_paths_returned _ _ _ _ Hvalid)
        as (parts & Hparts & ->).
      exists parts. split; [done|]. simpl. apply elem_of_cons. by left.
    + destruct (IH items' eq_refl raw Hin) as (parts & Hparts & Hmem).
      exists parts. split; [done|]. simpl. apply elem_of_cons. by right.
Qed.

(** C3, as the specification states it, fails: the reference passes the
    validation and resolves, and is registered under the string with the
    file scheme in front; the registry has no entry under the string the
    user wrote. *)
Lemma schemeless_reference_registered_with_scheme :
  let w := Sample.world false false in
  let path := "file://testing/custom_filters.py::is_invalid_secret" in
  let out := parse_args w (schemeless_options (Some [[path]])) Sample.fresh in
  filter_option w [schemeless] = Ok (Some [[path]])
  /\ _raise_if_custom_filter_path_is_invalid w path = Ok tt
  /\ out.1 = Ok tt
  /\ filters out.2 !! schemeless = None
  /\ filters out.2 !! path = Some ∅.
Proof. cbv zeta. split_and!; vm_compute; reflexivity. Qed.

(** C3, amended.  Let the [--filter] option be given the references
    [raws], all of which pass the validation, and let every validated
    reference resolve.  A run whose [initialize] calls return then
    returns, and for each reference the registry holds an entry of empty
    parameters under the validated reference: the string as the user
    wrote it, except that a string in which [urlparse] finds no scheme
    and which holds the delimiter is keyed with the file scheme in
    front. *)
Theorem custom_filter_keyed_by_validated_reference
    (w : World) (raws : list string) (args : Args) (st : State) :
  initialize_returns w ->
  filter_option w raws = Ok (custom_filter args) ->
  Forall (resolves w) (concat (default [] (custom_filter args))) ->
  (parse_args w args st).1 = Ok tt
  /\ forall raw, raw ∈ raws ->
       exists parts,
         urlparse w raw = Ok parts
         /\ filters (parse_args w args st).2
              !! (if negb (truthy (Urllib.scheme parts))
                     && PyStr.contains "::" raw
                  then FILE_SCHEME +:+ raw else raw)
            = Some ∅.
Proof.
  intros Hret Hopt Hall.
  destruct (policy_blocks_returns w args st Hret)
    as (st1 & st2 & st3 & _ & _ & _ & _ & _ & Hpol).
  rewrite parse_args_policy_then_custom, (bind_ok _ _ _ _ _ Hpol).
  rewrite register_custom_filters_loop.
  unfold filter_option in Hopt.
  destruct raws as [|raw0 raws].
  - injection Hopt as <-. split; [reflexivity|].
    intros raw Hin. by apply elem_of_nil in Hin.
  - destruct (collect_filter_option w (raw0 :: raws)) as [items|e] eqn:Hcol;
      [|discriminate].
    injection Hopt as Hopt. rewrite <- Hopt in Hall |- *.
    simpl in Hall. unfold if_truthy.
    assert (Hne : items <> []).
    { intros ->. simpl in Hcol.
      destruct (valid_looking_paths w raw0).1; [|discriminate].
      destruct (collect_filter_option w raws); discriminate. }
    destruct items as [|item items]; [done|]. cbn [truthy truthy_list].
    rewrite (for_each_register_all _ _ _ Hall). split; [reflexivity|].
    intros raw Hin.
    destruct (collect_filter_option_returned _ _ _ Hcol raw Hin)
      as (parts & Hparts & Hmem).
    exists parts. split; [done|]. cbn [snd]. simpl filters.
    rewrite registered_lookup. by rewrite bool_decide_eq_true_2.
Qed.

(** A reference with the file scheme, one without it and a dotted
    module path, given together. *)
Lemma custom_filter_keyed_by_validated_reference_witness :
  let w := Sample.world false false in
  let raws := ["file://testing/custom_filters.py::is_invalid_secret";
               schemeless;
               "detect_secrets.filters.common.is_invalid_file"] in
  let args := schemeless_options
    (Some [["file://testing/custom_filters.py::is_invalid_secret"];
           ["file://testing/custom_filters.py::is_invalid_secret"];
           ["detect_secrets.filters.common.is_invalid_file"]]) in
  initialize_returns w
  /\ filter_option w raws = Ok (custom_filter args)
  /\ Forall (resolves w) (concat (default [] (custom_filter args)))
  /\ (parse_args w args Sample.fresh).1 = Ok tt
  /\ forall raw, raw ∈ raws ->
       exists parts,
         urlparse w raw = Ok parts
         /\ filters (parse_args w args Sample.fresh).2
              !! (if negb (truthy (Urllib.scheme parts))
                     && PyStr.contains "::" raw
                  then FILE_SCHEME +:+ raw else raw)
            = Some ∅.
Proof.
  intros w raws args.
  assert (Hret : initialize_returns w) by (intros c f; reflexivity).
  assert (Hopt : filter_option w raws = Ok (custom_filter args))
    by (vm_compute; reflexivity).
  assert (Hall : Forall (resolves w) (concat (default [] (custom_filter args))))
    by (repeat constructor; vm_compute; reflexivity).
  split; [exact Hret|]. split; [exact Hopt|]. split; [exact Hall|].
  exact (custom_filter_keyed_by_validated_reference w raws args Sample.fresh
           Hret Hopt Hall).
Defined.

(** ** What a reference may resolve to *)

(** A dotted reference to a name that is bound to something else than a
    Python function is rejected. *)
Lemma namespaced_non_function_rejected (w : World) (path : string)
    (parts : Urllib.ParseResult) (module_path function_name : string)
    (module : PyModule) (obj : PyObj) :
  urlparse w path = Ok parts ->
  Urllib.scheme parts = EmptyString ->
  PyStr.rsplit1 "." path = Some (module_path, function_name) ->
  import_module w module_path = Ok module ->
  getattr module function_name = Some obj ->
  isfunction obj = false ->
  _raise_if_custom_filter_path_is_invalid w path
  = Raise (ArgumentTypeError (path +:+ " is not a filter function.")).
Proof.
  intros Hparts Hscheme Hsplit Himport Hattr Hfun.
  unfold _raise_if_custom_filter_path_is_invalid.
  by rewrite Hparts, Hscheme, Hsplit, Himport, Hattr, Hfun.
Qed.

(** A reference to a local file is accepted whatever its name is bound
    to in the file. *)
Lemma local_file_symbol_unchecked (w : World) (path : string)
    (parts : Urllib.ParseResult) (file_path function_name : string)
    (module : PyModule) (obj : PyObj) :
  urlparse w path = Ok parts ->
  Urllib.scheme parts = "file" ->
  PyStr.split "::" (PyStr.drop (String.length FILE_SCHEME) path)
  = [file_path; function_name] ->
  import_file_as_module w file_path = Ok module ->
  getattr module function_name = Some obj ->
  _raise_if_custom_filter_path_is_invalid w path = Ok tt.
Proof.
  intros Hparts Hscheme Hsplit Himport Hattr.
  unfold _raise_if_custom_filter_path_is_invalid.
  by rewrite Hparts, Hscheme, Hsplit, Himport, Hattr.
Qed.

(** C2 against the code.  The file [testing/custom_filters.py] binds
    [LIMIT] to a constant, which is not callable, and the reference to
    it resolves; the dotted reference to a class is rejected as the
    specification says. *)
Theorem local_file_reference_to_constant_resolves :
  let w := Sample.world false false in
  import_file_as_module w "testing/custom_filters.py"
  = Ok Sample.custom_filters_py
  /\ getattr Sample.custom_filters_py "LIMIT" = Some PyOther
  /\ callable PyOther = false
  /\ isfunction PyOther = false
  /\ (valid_looking_paths w "testing/custom_filters.py::LIMIT").1
     = Ok "file://testing/custom_filters.py::LIMIT"
  /\ _raise_if_custom_filter_path_is_invalid w
       "file://testing/custom_filters.py::LIMIT" = Ok tt
  /\ _raise_if_custom_filter_path_is_invalid w
       "detect_secrets.filters.common.Path"
     = Raise (ArgumentTypeError
                "detect_secrets.filters.common.Path is not a filter function.").
Proof. cbv zeta. split_and!; vm_compute; reflexivity. Qed.

(** ** Idempotence *)

Lemma disabled_twice (name : string) (f : gmap string Params) :
  disabled [name; name] f = disabled [name] f.
Proof.
  apply map_eq. intros k. rewrite !disabled_lookup.
  destruct (decide (k = name)) as [->|Hne].
  - by rewrite !bool_decide_elem_of_head.
  - by rewrite !bool_decide_elem_of_tail.
Qed.

Lemma redundant_twice (name : string) (f : gmap string Params) :
  redundant [name; name] f = redundant [name] f.
Proof.
  unfold redundant. f_equal. apply set_eq. intros k.
  rewrite !elem_of_difference, !elem_of_list_to_set, !elem_of_cons. tauto.
Qed.

(** C7. Disabling an identifier that the disable list names twice
    leaves the state that disabling it once leaves: the registry
    without the identifier, whatever it held before.  Registering a
    custom filter that the options name twice has the outcome of
    registering it once, which for a filter that resolves is the
    registry with the one entry of empty parameters for it. *)
Theorem disabling_and_registering_are_idempotent
    (w : World) (name : string) (once twice : Args) (st : State) :
  disable_filter once = Some [[name]] ->
  disable_filter twice = Some [[name]; [name]] ->
  custom_filter once = Some [[name]] ->
  custom_filter twice = Some [[name]; [name]] ->
  disable_listed_filters twice st = disable_listed_filters once st
  /\ filters (disable_listed_filters once st).2 = delete name (filters st)
  /\ register_custom_filters w twice st = register_custom_filters w once st
  /\ (resolves w name ->
      register_custom_filters w twice st
      = (Ok tt, with_filters (<[name := ∅]> (filters st)) st)).
Proof.
  intros Hd1 Hd2 Hc1 Hc2.
  rewrite !disable_listed_filters_run, !Hd1, !Hd2.
  rewrite !register_custom_filters_loop, Hc1, Hc2.
  unfold if_truthy. cbn [truthy truthy_list concat app for_each].
  split_and!.
  - by rewrite disabled_twice, redundant_twice.
  - reflexivity.
  - unfold register_custom_filter, pass, lift, set_filter, mbind, M_bind,
      mret, M_ret.
    destruct (_raise_if_custom_filter_path_is_invalid w name) as [[]|e];
      [|reflexivity].
    simpl. by rewrite insert_insert_eq.
  - intros Hres.
    unfold register_custom_filter, pass, lift, set_filter, mbind, M_bind,
      mret, M_ret.
    unfold resolves in Hres. rewrite Hres. simpl.
    by rewrite insert_insert_eq.
Qed.

(** A filter of the module [detect_secrets.filters.common], disabled
    and registered as a custom filter, on a registry that holds it. *)
Lemma disabling_and_registering_are_idempotent_witness :
  let w := Sample.world false false in
  let name := "detect_secrets.filters.common.is_invalid_file" in
  let once := {|
    exclude_lines := None; exclude_files := None; exclude_secrets := None;
    word_list_file := None; gibberish_model_file := None;
    gibberish_limit := None; huggingface_model := None; threshold := None;
    huggingface_token := None; no_verify := false; only_verified := false;
    disable_filter := Some [[name]]; custom_filter := Some [[name]] |} in
  let twice := {|
    exclude_lines := None; exclude_files := None; exclude_secrets := None;
    word_list_file := None; gibberish_model_file := None;
    gibberish_limit := None; huggingface_model := None; threshold := None;
    huggingface_token := None; no_verify := false; only_verified := false;
    disable_filter := Some [[name]; [name]];
    custom_filter := Some [[name]; [name]] |} in
  let st := with_filters {[ name := ∅ ]} Sample.fresh in
  disable_filter once = Some [[name]]
  /\ disable_filter twice = Some [[name]; [name]]
  /\ custom_filter once = Some [[name]]
  /\ custom_filter twice = Some [[name]; [name]]
  /\ disable_listed_filters twice st = disable_listed_filters once st
  /\ filters (disable_listed_filters once st).2 = delete name (filters st)
  /\ register_custom_filters w twice st = register_custom_filters w once st
  /\ (resolves w name ->
      register_custom_filters w twice st
      = (Ok tt, with_filters (<[name := ∅]> (filters st)) st)).
Proof.
  intros w name once twice st.
  split; [reflexivity|]. split; [reflexivity|].
  split; [reflexivity|]. split; [reflexivity|].
  exact (disabling_and_registering_are_idempotent w name once twice st
           eq_refl eq_refl eq_refl eq_refl).
Defined.

(** ** Syntactic validation of references to local files *)

Lemma append_assoc (s1 s2 s3 : string) :
  (s1 +:+ s2) +:+ s3 = s1 +:+ (s2 +:+ s3).
Proof.
  induction s1 as [|a s1 IH]; [reflexivity|].
  change (String a ((s1 +:+ s2) +:+ s3) = String a (s1 +:+ (s2 +:+ s3))).
  by rewrite IH.
Qed.

Lemma append_empty_r (s : string) : s +:+ EmptyString = s.
Proof.
  induction s as [|a s IH]; [reflexivity|].
  change (String a (s +:+ EmptyString) = String a s). by rewrite IH.
Qed.

(** A text without a colon starts with no delimiter. *)
Lemma no_colon_head (a : ascii) (p rest : string) :
  PyStr.contains ":" (String a p) = false ->
  String.prefix "::" (String a rest) = false
  /\ PyStr.contains ":" p = false.
Proof.
  cbn [PyStr.contains String.prefix].
  destruct (ascii_dec ":" a) as [Heq|Hne].
  - intros Hp. destruct p; discriminate Hp.
  - intros Hp. split; [reflexivity|exact Hp].
Qed.

Lemma prefix_delimiter (s : string) :
  String.prefix "::" (String ":" (String ":" s)) = true.
Proof. by destruct s. Qed.

(** [(p + "::" + s).split("::")] when [p] holds no colon: [p], then the
    components of [s]. *)
Lemma split_from_delimiter (p cur s : string) :
  PyStr.contains ":" p = false ->
  PyStr.split_from "::" 0 cur (p +:+ ("::" +:+ s))
  = (cur +:+ p) :: PyStr.split "::" s.
Proof.
  revert cur. induction p as [|a p IH]; intros cur Hp.
  - rewrite append_empty_r.
    change (EmptyString +:+ ("::" +:+ s)) with (String ":" (String ":" s)).
    cbn [PyStr.split_from]. by rewrite prefix_delimiter.
  - destruct (no_colon_head a p (p +:+ ("::" +:+ s)) Hp) as [Hpre Hp'].
    change (String a p +:+ ("::" +:+ s))
      with (String a (p +:+ ("::" +:+ s))).
    cbn [PyStr.split_from]. rewrite Hpre, (IH _ Hp'), append_assoc.
    reflexivity.
Qed.

Lemma split_delimiter (p s : string) :
  PyStr.contains ":" p = false ->
  PyStr.split "::" (p +:+ ("::" +:+ s)) = p :: PyStr.split "::" s.
Proof. intros Hp. unfold PyStr.split. by rewrite split_from_delimiter. Qed.

Lemma contains_delimiter (p s : string) :
  PyStr.contains "::" (p +:+ ("::" +:+ s)) = true.
Proof.
  induction p as [|a p IH].
  - change (EmptyString +:+ ("::" +:+ s)) with (String ":" (String ":" s)).
    cbn [PyStr.contains]. by rewrite prefix_delimiter.
  - change (String a p +:+ ("::" +:+ s))
      with (String a (p +:+ ("::" +:+ s))).
    cbn [PyStr.contains]. rewrite IH. apply orb_true_r.
Qed.

(** The component count of a reference with the file scheme is checked
    on the path that [urlparse] reports, and before the file system is
    looked at. *)
Lemma component_count_checked_first (w : World) (path : string)
    (parts : Urllib.ParseResult) :
  urlparse w path = Ok parts ->
  Urllib.scheme parts = "file" ->
  length (PyStr.split "::" (Urllib.path parts)) <> 2 ->
  valid_looking_paths w path
  = (Raise (ArgumentTypeError
              "Did not specify function name for imported file."), []).
Proof.
  intros Hparts Hscheme Hcount. unfold valid_looking_paths.
  rewrite Hparts, Hscheme. cbn [truthy truthy_string negb andb].
  rewrite Hscheme. cbn [String.eqb Ascii.eqb Bool.eqb].
  by rewrite (proj2 (Nat.eqb_neq _ _) Hcount).
Qed.



(** C6 against the code.  Each of these references holds the
    delimiter twice.  In the first the network location takes one of
    them: the component count passes, the file system is looked at, and
    the error is the one about the file.  In the second the fragment
    takes one: the reference is accepted, with or without the file
    scheme in front, and its resolution fails on the three components
    with an uncaught [ValueError]. *)
Theorem delimiter_outside_url_path_is_not_counted :
  let w := Sample.world false false in
  let r1 := "file://a::b/c.py::fn" in
  let r2 := "file://testing/custom_filters.py::is_invalid_secret#::x" in
  PyStr.split "::" (PyStr.drop (String.length FILE_SCHEME) r1)
  = ["a"; "b/c.py"; "fn"]
  /\ valid_looking_paths w r1
     = (Raise (ArgumentTypeError "a is not a valid file."), ["a"])
  /\ PyStr.split "::" (PyStr.drop (String.length FILE_SCHEME) r2)
     = ["testing/custom_filters.py"; "is_invalid_secret#"; "x"]
  /\ valid_looking_paths w r2 = (Ok r2, ["testing/custom_filters.py"])
  /\ valid_looking_paths w
       "testing/custom_filters.py::is_invalid_secret#::x"
     = (Ok r2, ["testing/custom_filters.py"])
  /\ _raise_if_custom_filter_path_is_invalid w r2 = Raise ValueError.
Proof. cbv zeta. split_and!; vm_compute; reflexivity. Qed.

(** The slip shows on everyday references too: a file in the current
    directory is taken for a network location, or for a scheme when its
    name has scheme characters only, and a reference to it never passes
    the validation, whether the file exists or not. *)
Example file_in_current_directory_is_refused :
  let w := Sample.world false false in
  valid_looking_paths w "custom_filters.py::is_invalid_secret"
  = (Raise (ArgumentTypeError
              "Did not specify function name for imported file."), [])
  /\ valid_looking_paths w "path.py::fn"
     = (Raise (ArgumentTypeError "path.py::fn is not a valid filter path."),
        []).
Proof. cbv zeta. split; vm_compute; reflexivity. Qed.

(** ** The hypotheses of C5 under the reference [urlparse]

    With CPython's [urlparse], the amended C5 covers every reference
    [dir/file::symbol] written with the characters below. *)

Lemma forallb_impl (P Q : ascii -> bool) (x : string) :
  (forall a, P a = true -> Q a = true) ->
  PyStr.forallb P x = true -> PyStr.forallb Q x = true.
Proof.
  intros HPQ. induction x as [|a x IH]; [done|].
  cbn [PyStr.forallb]. intros [Ha Hx]%andb_true_iff.
  by rewrite (HPQ _ Ha), IH.
Qed.

Lemma forallb_append (P : ascii -> bool) (x y : string) :
  PyStr.forallb P (x +:+ y) = PyStr.forallb P x && PyStr.forallb P y.
Proof.
  induction x as [|a x IH]; [reflexivity|].
  change (String a x +:+ y) with (String a (x +:+ y)).
  cbn [PyStr.forallb]. by rewrite IH, andb_assoc.
Qed.

Lemma find_absent (c : ascii) (x : string) :
  PyStr.forallb (differs c) x = true -> PyStr.find c x = None.
Proof.
  induction x as [|a x IH]; [done|].
  cbn [PyStr.forallb PyStr.find]. unfold differs at 1.
  intros [Ha Hx]%andb_true_iff. apply negb_true_iff in Ha.
  by rewrite Ha, IH.
Qed.

Lemma contains_absent (c : ascii) (x : string) :
  PyStr.forallb (differs c) x = true ->
  PyStr.contains (String c EmptyString) x = false.
Proof.
  induction x as [|a x IH]; [done|].
  cbn [PyStr.forallb PyStr.contains String.prefix]. unfold differs at 1.
  intros [Ha Hx]%andb_true_iff. apply negb_true_iff in Ha.
  rewrite (IH Hx), orb_false_r.
  destruct (ascii_dec c a) as [->|Hne]; [|reflexivity].
  by rewrite Ascii.eqb_refl in Ha.
Qed.

Lemma before_first_absent (c : ascii) (x : string) :
  PyStr.forallb (differs c) x = true -> Urllib.before_first c x = x.
Proof.
  intros Hx. unfold Urllib.before_first. by rewrite find_absent.
Qed.

Lemma symbol_char_differs (c : ascii) :
  List.In c ["?"; "#"; "["; "]"]%char ->
  forall a, symbol_char a = true -> differs c a = true.
Proof.
  intros Hc a. unfold symbol_char, differs.
  intros [Hprint Hres]%andb_true_iff.
  apply negb_true_iff in Hres. apply negb_true_iff.
  destruct (Ascii.eqb_spec a c) as [->|]; [|reflexivity].
  simpl in Hc. destruct Hc as [<-|[<-|[<-|[<-|[]]]]]; discriminate Hres.
Qed.

Lemma path_char_symbol_char (a : ascii) :
  path_char a = true -> symbol_char a = true.
Proof. unfold path_char. by intros [Hs _]%andb_true_iff. Qed.

Lemma path_char_no_colon (a : ascii) :
  path_char a = true -> differs ":" a = true.
Proof. unfold path_char. by intros [_ Hc]%andb_true_iff. Qed.

Lemma dir_char_path_char (a : ascii) :
  dir_char a = true -> path_char a = true.
Proof. unfold dir_char. by intros [Hp _]%andb_true_iff. Qed.

Lemma dir_char_no_delim (a : ascii) :
  dir_char a = true -> Urllib.is_delim a = false.
Proof.
  unfold dir_char. intros [Hp Hslash]%andb_true_iff.
  apply path_char_symbol_char in Hp.
  pose proof (symbol_char_differs "?" ltac:(simpl; auto) a Hp) as Hq.
  pose proof (symbol_char_differs "#" ltac:(simpl; auto) a Hp) as Hh.
  unfold differs in *. apply negb_true_iff in Hslash, Hq, Hh.
  unfold Urllib.is_delim. by rewrite Hslash, Hq, Hh.
Qed.

Lemma symbol_char_printable (a : ascii) :
  symbol_char a = true ->
  Urllib.c0_control_or_space a = false /\ Urllib.unsafe_byte a = false.
Proof.
  unfold symbol_char. intros [[_ Hprint]%andb_true_iff _]%andb_true_iff.
  apply negb_true_iff in Hprint. split; [exact Hprint|].
  unfold Urllib.c0_control_or_space in Hprint. unfold Urllib.unsafe_byte.
  apply N.leb_gt in Hprint.
  destruct (N.eqb_spec (PyStr.code a) 9) as [Heq|_];
    [rewrite Heq in Hprint; lia|].
  destruct (N.eqb_spec (PyStr.code a) 13) as [Heq|_];
    [rewrite Heq in Hprint; lia|].
  destruct (N.eqb_spec (PyStr.code a) 10) as [Heq|_];
    [rewrite Heq in Hprint; lia|].
  reflexivity.
Qed.

Lemma lstrip_printable (x : string) :
  PyStr.forallb symbol_char x = true ->
  PyStr.lstrip Urllib.c0_control_or_space x = x.
Proof.
  destruct x as [|a x]; [done|]. cbn [PyStr.forallb PyStr.lstrip].
  intros [Ha _]%andb_true_iff.
  by rewrite (proj1 (symbol_char_printable a Ha)).
Qed.

Lemma remove_printable (x : string) :
  PyStr.forallb symbol_char x = true ->
  PyStr.remove Urllib.unsafe_byte x = x.
Proof.
  induction x as [|a x IH]; [done|]. cbn [PyStr.forallb PyStr.remove].
  intros [Ha Hx]%andb_true_iff.
  by rewrite (proj2 (symbol_char_printable a Ha)), IH.
Qed.

Lemma find_colon_append (p x : string) :
  PyStr.forallb (differs ":") p = true ->
  PyStr.find ":" (p +:+ String ":" x) = Some (String.length p).
Proof.
  induction p as [|a p IH]; [done|].
  change (String a p +:+ String ":" x) with (String a (p +:+ String ":" x)).
  cbn [PyStr.forallb PyStr.find String.length]. unfold differs at 1.
  intros [Ha Hp]%andb_true_iff. apply negb_true_iff in Ha.
  by rewrite Ha, IH.
Qed.

Lemma take_append (p x : string) : PyStr.take (String.length p) (p +:+ x) = p.
Proof.
  induction p as [|a p IH]; [by destruct x|].
  change (String a p +:+ x) with (String a (p +:+ x)).
  cbn [String.length PyStr.take]. by rewrite IH.
Qed.

Lemma scheme_chars_stop_at_slash (d f : string) :
  PyStr.forallb Urllib.scheme_char (d +:+ String "/" f) = false.
Proof.
  rewrite forallb_append. cbn [PyStr.forallb].
  change (Urllib.scheme_char "/") with false. apply andb_false_r.
Qed.

(** A text with a slash before its first colon has no scheme. *)
Lemma split_scheme_with_slash (d f x : string) :
  PyStr.forallb (differs ":") (d +:+ String "/" f) = true ->
  Urllib.split_scheme ((d +:+ String "/" f) +:+ String ":" x)
  = (EmptyString, (d +:+ String "/" f) +:+ String ":" x).
Proof.
  intros Hp. unfold Urllib.split_scheme. rewrite (find_colon_append _ _ Hp).
  pose proof (scheme_chars_stop_at_slash d f) as Hstop.
  pose proof (take_append (d +:+ String "/" f) (String ":" x)) as Htake.
  destruct (d +:+ String "/" f) as [|a p] eqn:Hdf.
  { by destruct d. }
  change (String a p +:+ String ":" x) with (String a (p +:+ String ":" x))
    in *.
  cbn [String.length]. cbn [String.length] in Htake.
  by rewrite Htake, Hstop, andb_false_r.
Qed.

Lemma splitnetloc_parts (P : ascii -> bool) (x : string) :
  PyStr.forallb P x = true ->
  PyStr.forallb P (Urllib.splitnetloc x).1 = true.
Proof.
  induction x as [|a x IH]; [done|]. cbn [PyStr.forallb Urllib.splitnetloc].
  intros [Ha Hx]%andb_true_iff. destruct (Urllib.is_delim a); [done|].
  destruct (Urllib.splitnetloc x) as [n r]. cbn [fst PyStr.forallb] in *.
  by rewrite Ha, IH.
Qed.

Lemma splitnetloc_directory (d x : string) :
  PyStr.forallb dir_char d = true ->
  Urllib.splitnetloc (d +:+ String "/" x) = (d, String "/" x).
Proof.
  induction d as [|a d IH]; [done|].
  change (String a d +:+ String "/" x) with (String a (d +:+ String "/" x)).
  cbn [PyStr.forallb Urllib.splitnetloc].
  intros [Ha Hd]%andb_true_iff.
  by rewrite (dir_char_no_delim a Ha), IH.
Qed.

Lemma no_brackets (x : string) :
  PyStr.forallb symbol_char x = true ->
  PyStr.contains "[" x || PyStr.contains "]" x = false.
Proof.
  intros Hx.
  rewrite (contains_absent "[" x), (contains_absent "]" x); [done| |].
  - exact (forallb_impl _ _ _
             (symbol_char_differs "]" ltac:(simpl; auto)) Hx).
  - exact (forallb_impl _ _ _
             (symbol_char_differs "[" ltac:(simpl; auto)) Hx).
Qed.

(** A text without the delimiter is one component. *)
Lemma split_from_single (cur s : string) :
  PyStr.contains "::" s = false ->
  PyStr.split_from "::" 0 cur s = [cur +:+ s].
Proof.
  revert cur. induction s as [|a s IH]; intros cur.
  - by rewrite append_empty_r.
  - cbn [PyStr.contains PyStr.split_from].
    intros [Hpre Hs]%orb_false_iff.
    by rewrite Hpre, (IH _ Hs), append_assoc.
Qed.

Lemma forallb_drop (P : ascii -> bool) (n : nat) (x : string) :
  PyStr.forallb P x = true -> PyStr.forallb P (PyStr.drop n x) = true.
Proof.
  revert x. induction n as [|n IH]; intros [|a x]; try done.
  cbn [PyStr.forallb PyStr.drop]. intros [_ Hx]%andb_true_iff. by apply IH.
Qed.

Lemma prefix_slashes (x : string) :
  String.prefix "//" (String "/" (String "/" x)) = true.
Proof. by destruct x. Qed.

Lemma file_is_no_params_scheme :
  bool_decide ("file" ∈ Urllib.uses_params) = false.
Proof. by vm_compute. Qed.

Lemma symbol_char_is_ascii (a : ascii) :
  symbol_char a = true -> is_ascii a = true.
Proof.
  unfold symbol_char. by intros [[H _]%andb_true_iff _]%andb_true_iff.
Qed.

(** The [urlparse] of the world on a text of symbol characters. *)
Lemma reference_urlparse_symbol (w : World) (x : string) :
  reference_urlparse w ->
  PyStr.forallb symbol_char x = true ->
  urlparse w x = Urllib.urlparse x.
Proof.
  intros Hw Hx. apply Hw.
  - exact (forallb_impl _ _ _ symbol_char_is_ascii Hx).
  - by apply no_brackets.
Qed.

Lemma symbol_reference (d f s : string) :
  PyStr.forallb dir_char d = true ->
  PyStr.forallb path_char f = true ->
  PyStr.forallb symbol_char s = true ->
  PyStr.forallb symbol_char ((d +:+ String "/" f) +:+ ("::" +:+ s)) = true.
Proof.
  intros Hd Hf Hs. rewrite !forallb_append.
  change ("::" +:+ s) with (String ":" (String ":" s)).
  cbn [PyStr.forallb].
  rewrite (forallb_impl _ _ _
             (fun c Hc => path_char_symbol_char c (dir_char_path_char c Hc))
             Hd).
  by rewrite (forallb_impl _ _ _ path_char_symbol_char Hf), Hs.
Qed.

Lemma symbol_behind_file_scheme (x : string) :
  PyStr.forallb symbol_char x = true ->
  PyStr.forallb symbol_char (FILE_SCHEME +:+ x) = true.
Proof. intros Hx. by rewrite forallb_append, Hx. Qed.

(** The reference [dir/file::symbol], as [urlparse] sees it. *)
Lemma urlparse_schemeless (d f s : string) :
  PyStr.forallb dir_char d = true ->
  PyStr.forallb path_char f = true ->
  PyStr.forallb symbol_char s = true ->
  exists parts,
    Urllib.urlparse ((d +:+ String "/" f) +:+ ("::" +:+ s)) = Ok parts
    /\ Urllib.scheme parts = EmptyString.
Proof.
  intros Hd Hf Hs.
  assert (Hp : PyStr.forallb path_char (d +:+ String "/" f) = true).
  { rewrite forallb_append. cbn [PyStr.forallb].
    rewrite (forallb_impl _ _ _ dir_char_path_char Hd), Hf.
    reflexivity. }
  assert (Hraw : PyStr.forallb symbol_char
                   ((d +:+ String "/" f) +:+ ("::" +:+ s)) = true).
  { rewrite forallb_append.
    rewrite (forallb_impl _ _ _ path_char_symbol_char Hp).
    change ("::" +:+ s) with (String ":" (String ":" s)).
    cbn [PyStr.forallb]. by rewrite Hs. }
  unfold Urllib.urlparse.
  rewrite (lstrip_printable _ Hraw), (remove_printable _ Hraw).
  change ("::" +:+ s) with (String ":" (String ":" s)) in *.
  rewrite (split_scheme_with_slash d f _
             (forallb_impl _ _ _ path_char_no_colon Hp)).
  set (raw := (d +:+ String "/" f) +:+ String ":" (String ":" s)) in *.
  assert (Hnet : PyStr.forallb symbol_char
            (if String.prefix "//" raw
             then Urllib.splitnetloc (PyStr.drop 2 raw)
             else (EmptyString, raw)).1 = true).
  { destruct (String.prefix "//" raw); [|done].
    by apply splitnetloc_parts, forallb_drop. }
  destruct (if String.prefix "//" raw
            then Urllib.splitnetloc (PyStr.drop 2 raw)
            else (EmptyString, raw)) as [net url].
  cbn [fst] in Hnet. rewrite (no_brackets _ Hnet).
  eexists. split; reflexivity.
Qed.

(** The same reference behind the file scheme. *)
Lemma urlparse_file_scheme (d f s : string) :
  PyStr.forallb dir_char d = true ->
  PyStr.forallb path_char f = true ->
  PyStr.forallb symbol_char s = true ->
  Urllib.urlparse (FILE_SCHEME +:+ ((d +:+ String "/" f) +:+ ("::" +:+ s)))
  = Ok {| Urllib.scheme := "file"; Urllib.netloc := d;
          Urllib.path := String "/" f +:+ ("::" +:+ s) |}.
Proof.
  intros Hd Hf Hs.
  assert (Hrest : PyStr.forallb symbol_char (String "/" f +:+ ("::" +:+ s))
                  = true).
  { rewrite forallb_append. cbn [PyStr.forallb].
    rewrite (forallb_impl _ _ _ path_char_symbol_char Hf).
    change ("::" +:+ s) with (String ":" (String ":" s)).
    cbn [PyStr.forallb]. by rewrite Hs. }
  assert (Hdir : PyStr.forallb symbol_char d = true).
  { apply (forallb_impl path_char); [apply path_char_symbol_char|].
    by apply (forallb_impl dir_char); [apply dir_char_path_char|]. }
  assert (Hraw : PyStr.forallb symbol_char
                   ((d +:+ String "/" f) +:+ ("::" +:+ s)) = true).
  { rewrite append_assoc, forallb_append. by rewrite Hdir, Hrest. }
  unfold Urllib.urlparse.
  change (PyStr.lstrip Urllib.c0_control_or_space
            (FILE_SCHEME +:+ ((d +:+ String "/" f) +:+ ("::" +:+ s))))
    with (FILE_SCHEME +:+ ((d +:+ String "/" f) +:+ ("::" +:+ s))).
  change (PyStr.remove Urllib.unsafe_byte
            (FILE_SCHEME +:+ ((d +:+ String "/" f) +:+ ("::" +:+ s))))
    with (FILE_SCHEME +:+
          PyStr.remove Urllib.unsafe_byte
            ((d +:+ String "/" f) +:+ ("::" +:+ s))).
  rewrite (remove_printable _ Hraw).
  change (Urllib.split_scheme
            (FILE_SCHEME +:+ ((d +:+ String "/" f) +:+ ("::" +:+ s))))
    with ("file",
          String "/" (String "/" ((d +:+ String "/" f) +:+ ("::" +:+ s)))).
  cbv iota beta. rewrite prefix_slashes.
  change (PyStr.drop 2
            (String "/" (String "/" ((d +:+ String "/" f) +:+ ("::" +:+ s)))))
    with ((d +:+ String "/" f) +:+ ("::" +:+ s)).
  rewrite append_assoc.
  change (String "/" f +:+ ("::" +:+ s))
    with (String "/" (f +:+ ("::" +:+ s))) in *.
  rewrite (splitnetloc_directory _ _ Hd). cbv iota beta.
  rewrite (no_brackets _ Hdir).
  rewrite (before_first_absent "#")
    by exact (forallb_impl _ _ _
                (symbol_char_differs "#" ltac:(simpl; auto)) Hrest).
  rewrite (before_first_absent "?")
    by exact (forallb_impl _ _ _
                (symbol_char_differs "?" ltac:(simpl; auto)) Hrest).
  by rewrite file_is_no_params_scheme.
Qed.



(** ** Colors of the terminal output *)

Lemma length_append (s1 s2 : string) :
  String.length (s1 +:+ s2) = String.length s1 + String.length s2.
Proof.
  induction s1 as [|a s1 IH]; [reflexivity|].
  change (String a s1 +:+ s2) with (String a (s1 +:+ s2)).
  cbn [String.length]. by rewrite IH.
Qed.

Lemma append_inj_r (s1 s2 t : string) : s1 +:+ t = s2 +:+ t -> s1 = s2.
Proof.
  revert s2. induction s1 as [|a s1 IH]; intros [|b s2] Heq.
  - reflexivity.
  - apply (f_equal String.length) in Heq.
    change (String b s2 +:+ t) with (String b (s2 +:+ t)) in Heq.
    change (EmptyString +:+ t) with t in Heq.
    cbn [String.length] in Heq. rewrite length_append in Heq. lia.
  - apply (f_equal String.length) in Heq.
    change (String a s1 +:+ t) with (String a (s1 +:+ t)) in Heq.
    change (EmptyString +:+ t) with t in Heq.
    cbn [String.length] in Heq. rewrite length_append in Heq. lia.
  - change (String a (s1 +:+ t) = String b (s2 +:+ t)) in Heq.
    injection Heq as -> Heq. f_equal. by apply IH.
Qed.

(** No color code is the start of another one. *)
Lemma value_prefix_free (c1 c2 : Color.AnsiColor) (x y : string) :
  Color.value c1 +:+ x = Color.value c2 +:+ y -> c1 = c2 /\ x = y.
Proof.
  destruct c1, c2; vm_compute; intros Heq;
    try discriminate Heq; injection Heq as ->; done.
Qed.

Lemma colorize_supported (t : Color.Terminal) (text : string)
    (color : Color.AnsiColor) :
  Color.supports_ansi_colors t = true ->
  Color.colorize t text color
  = Color.ESC +:+ Color.value color +:+ text +:+ Color.ESC +:+ "[0m".
Proof. intros Hs. unfold Color.colorize. by rewrite Hs. Qed.

(** X1. [CLICOLOR_FORCE] set to anything but [0], the empty string
    included, forces the colors: the text is wrapped in the code of the
    color and the reset code whether or not the output is a terminal and
    whatever [CLICOLOR] says. *)
Theorem forced_colors_override (t : Color.Terminal) (v text : string)
    (color : Color.AnsiColor) :
  Color.environ t !! "CLICOLOR_FORCE" = Some v ->
  v <> "0" ->
  Color.colorize t text color
  = Color.ESC +:+ Color.value color +:+ text +:+ Color.ESC +:+ "[0m".
Proof.
  intros Hv Hne. apply colorize_supported.
  unfold Color.supports_ansi_colors, Color.getenv. rewrite Hv.
  cbn [default from_option id]. rewrite (proj2 (String.eqb_neq v "0") Hne).
  apply orb_true_r.
Qed.

(** The output is piped, [CLICOLOR] is [0] and [CLICOLOR_FORCE] is set
    to the empty string. *)
Lemma forced_colors_override_witness :
  let t := {| Color.environ :=
                {[ "CLICOLOR" := "0"; "CLICOLOR_FORCE" := EmptyString ]};
              Color.isatty := false |} in
  Color.environ t !! "CLICOLOR_FORCE" = Some EmptyString
  /\ EmptyString <> "0"
  /\ Color.colorize t "secret" Color.RED
     = Color.ESC +:+ "[91msecret" +:+ Color.ESC +:+ "[0m".
Proof.
  intros t. split; [reflexivity|]. split; [discriminate|].
  exact (forced_colors_override t EmptyString "secret" Color.RED
           eq_refl ltac:(discriminate)).
Defined.

(** X2. Unless [CLICOLOR_FORCE] forces them, there are no colors off a
    terminal and none with [CLICOLOR] at [0]: [colorize] returns the
    text as it is. *)
Theorem no_colors_without_terminal (t : Color.Terminal) (text : string)
    (color : Color.AnsiColor) :
  Color.environ t !! "CLICOLOR_FORCE" = None
  \/ Color.environ t !! "CLICOLOR_FORCE" = Some "0" ->
  Color.isatty t = false \/ Color.environ t !! "CLICOLOR" = Some "0" ->
  Color.colorize t text color = text.
Proof.
  intros Hforce Hoff.
  unfold Color.colorize, Color.supports_ansi_colors, Color.getenv.
  assert (Hf : default "0" (Color.environ t !! "CLICOLOR_FORCE") = "0")
    by (destruct Hforce as [-> | ->]; reflexivity).
  rewrite Hf. cbn [String.eqb Ascii.eqb Bool.eqb negb andb].
  rewrite orb_false_r.
  destruct Hoff as [-> | ->]; [by rewrite andb_false_r|reflexivity].
Qed.

(** A pipe with an empty environment, and a terminal with [CLICOLOR] at
    [0]. *)
Lemma no_colors_without_terminal_witness :
  let piped := {| Color.environ := ∅; Color.isatty := false |} in
  let muted := {| Color.environ := {[ "CLICOLOR" := "0" ]};
                  Color.isatty := true |} in
  Color.environ piped !! "CLICOLOR_FORCE" = None
  /\ Color.isatty piped = false
  /\ Color.environ muted !! "CLICOLOR_FORCE" = None
  /\ Color.environ muted !! "CLICOLOR" = Some "0"
  /\ Color.colorize piped "secret" Color.RED = "secret"
  /\ Color.colorize muted "secret" Color.BOLD = "secret".
Proof.
  intros piped muted.
  split; [reflexivity|]. split; [reflexivity|].
  split; [reflexivity|]. split; [reflexivity|]. split.
  - exact (no_colors_without_terminal piped "secret" Color.RED
             (or_introl eq_refl) (or_introl eq_refl)).
  - exact (no_colors_without_terminal muted "secret" Color.BOLD
             (or_introl eq_refl) (or_intror eq_refl)).
Defined.

(** X3. On a terminal the colors are on by default: only [CLICOLOR] set
    to exactly [0] turns them off, whatever [CLICOLOR_FORCE] says. *)
Theorem colors_on_terminal_by_default (t : Color.Terminal) (text : string)
    (color : Color.AnsiColor) :
  Color.isatty t = true ->
  Color.environ t !! "CLICOLOR" <> Some "0" ->
  Color.colorize t text color
  = Color.ESC +:+ Color.value color +:+ text +:+ Color.ESC +:+ "[0m".
Proof.
  intros Htty Hne. apply colorize_supported.
  unfold Color.supports_ansi_colors, Color.getenv. rewrite Htty.
  destruct (Color.environ t !! "CLICOLOR") as [v|]; [|reflexivity].
  cbn [default from_option id]. rewrite (proj2 (String.eqb_neq v "0")); [reflexivity|].
  intros ->. by apply Hne.
Qed.

(** A terminal with [CLICOLOR] at [00] and [CLICOLOR_FORCE] at [0]. *)
Lemma colors_on_terminal_by_default_witness :
  let t := {| Color.environ :=
                {[ "CLICOLOR" := "00"; "CLICOLOR_FORCE" := "0" ]};
              Color.isatty := true |} in
  Color.isatty t = true
  /\ Color.environ t !! "CLICOLOR" <> Some "0"
  /\ Color.colorize t "secret" Color.PURPLE
     = Color.ESC +:+ "[95msecret" +:+ Color.ESC +:+ "[0m".
Proof.
  intros t. split; [reflexivity|]. split; [by vm_compute|].
  exact (colors_on_terminal_by_default t "secret" Color.PURPLE
           eq_refl ltac:(by vm_compute)).
Defined.

(** X4. When the colors are on, the colored text tells the text and the
    color: two calls of [colorize] give the same string only for the
    same text in the same color. *)
Theorem colorize_injective (t : Color.Terminal) (text1 text2 : string)
    (color1 color2 : Color.AnsiColor) :
  Color.supports_ansi_colors t = true ->
  Color.colorize t text1 color1 = Color.colorize t text2 color2 ->
  text1 = text2 /\ color1 = color2.
Proof.
  intros Hs. rewrite !colorize_supported by exact Hs. intros Heq.
  apply (inj (String.append Color.ESC)) in Heq.
  apply value_prefix_free in Heq as [-> Heq].
  split; [|reflexivity]. by apply append_inj_r in Heq.
Qed.

Lemma colorize_injective_witness :
  let t := {| Color.environ := ∅; Color.isatty := true |} in
  Color.supports_ansi_colors t = true
  /\ Color.colorize t "secret" Color.RED = Color.colorize t "secret" Color.RED
  /\ "secret" = "secret" /\ Color.RED = Color.RED.
Proof.
  intros t. split; [reflexivity|]. split; [reflexivity|].
  exact (colorize_injective t "secret" "secret" Color.RED Color.RED
           eq_refl eq_refl).
Defined.

(** ** References without a colon *)

Lemma forallb_lstrip (P q : ascii -> bool) (x : string) :
  PyStr.forallb P x = true -> PyStr.forallb P (PyStr.lstrip q x) = true.
Proof.
  induction x as [|a x IH]; [done|]. cbn [PyStr.forallb PyStr.lstrip].
  intros [Ha Hx]%andb_true_iff. destruct (q a); [by apply IH|].
  cbn [PyStr.forallb]. by rewrite Ha, Hx.
Qed.

Lemma forallb_remove (P q : ascii -> bool) (x : string) :
  PyStr.forallb P x = true -> PyStr.forallb P (PyStr.remove q x) = true.
Proof.
  induction x as [|a x IH]; [done|]. cbn [PyStr.forallb PyStr.remove].
  intros [Ha Hx]%andb_true_iff. destruct (q a); [by apply IH|].
  cbn [PyStr.forallb]. by rewrite Ha, IH.
Qed.

Lemma plain_char_no_colon (a : ascii) :
  plain_char a = true -> differs ":" a = true.
Proof.
  unfold plain_char.
  by intros [[[_ H]%andb_true_iff _]%andb_true_iff _]%andb_true_iff.
Qed.

Lemma plain_char_no_open (a : ascii) :
  plain_char a = true -> differs "[" a = true.
Proof.
  unfold plain_char. by intros [[_ H]%andb_true_iff _]%andb_true_iff.
Qed.

Lemma plain_char_no_close (a : ascii) :
  plain_char a = true -> differs "]" a = true.
Proof. unfold plain_char. by intros [_ H]%andb_true_iff. Qed.

Lemma word_char_plain_char (a : ascii) :
  word_char a = true -> plain_char a = true.
Proof. unfold word_char. by intros [H _]%andb_true_iff. Qed.

Lemma word_char_no_dot (a : ascii) :
  word_char a = true -> differs "." a = true.
Proof. unfold word_char. by intros [_ H]%andb_true_iff. Qed.

Lemma plain_char_is_ascii (a : ascii) :
  plain_char a = true -> is_ascii a = true.
Proof.
  unfold plain_char.
  by intros [[[H _]%andb_true_iff _]%andb_true_iff _]%andb_true_iff.
Qed.

(** The [urlparse] of the world on a text of plain characters. *)
Lemma reference_urlparse_plain (w : World) (x : string) :
  reference_urlparse w ->
  PyStr.forallb plain_char x = true ->
  urlparse w x = Urllib.urlparse x.
Proof.
  intros Hw Hx. apply Hw.
  - exact (forallb_impl _ _ _ plain_char_is_ascii Hx).
  - rewrite (contains_absent "[" x)
      by exact (forallb_impl _ _ _ plain_char_no_open Hx).
    by rewrite (contains_absent "]" x)
      by exact (forallb_impl _ _ _ plain_char_no_close Hx).
Qed.

Lemma split_scheme_colon_free (x : string) :
  PyStr.forallb (differs ":") x = true ->
  Urllib.split_scheme x = (EmptyString, x).
Proof. intros Hx. unfold Urllib.split_scheme. by rewrite find_absent. Qed.

(** A text without a colon has no delimiter. *)
Lemma contains_delimiter_absent (x : string) :
  PyStr.contains ":" x = false -> PyStr.contains "::" x = false.
Proof.
  induction x as [|a x IH]; [done|]. intros Hx.
  destruct (no_colon_head a x x Hx) as [Hpre Hx'].
  cbn [PyStr.contains]. by rewrite Hpre, (IH Hx').
Qed.

(** [urlparse] finds no scheme in a text without a colon, and accepts
    the text when it holds no square bracket. *)
Lemma urlparse_colon_free (x : string) :
  PyStr.forallb plain_char x = true ->
  exists parts,
    Urllib.urlparse x = Ok parts /\ Urllib.scheme parts = EmptyString.
Proof.
  intros Hx. unfold Urllib.urlparse.
  set (url := PyStr.remove Urllib.unsafe_byte
                (PyStr.lstrip Urllib.c0_control_or_space x)).
  assert (Hurl : PyStr.forallb plain_char url = true)
    by (by apply forallb_remove, forallb_lstrip).
  rewrite (split_scheme_colon_free url)
    by exact (forallb_impl _ _ _ plain_char_no_colon Hurl).
  assert (Hnet : PyStr.forallb plain_char
            (if String.prefix "//" url
             then Urllib.splitnetloc (PyStr.drop 2 url)
             else (EmptyString, url)).1 = true).
  { destruct (String.prefix "//" url); [|done].
    by apply splitnetloc_parts, forallb_drop. }
  destruct (if String.prefix "//" url
            then Urllib.splitnetloc (PyStr.drop 2 url)
            else (EmptyString, url)) as [net rest].
  cbn [fst] in Hnet.
  rewrite (contains_absent "[" net)
    by exact (forallb_impl _ _ _ plain_char_no_open Hnet).
  rewrite (contains_absent "]" net)
    by exact (forallb_impl _ _ _ plain_char_no_close Hnet).
  eexists. split; reflexivity.
Qed.

(** X5. Under CPython's [urlparse], every reference written in ASCII
    without a colon and a square bracket passes the syntactic
    validation, is returned as it was written, and the file system is
    not looked at: whether the text names a module and a function is
    left to the resolution. *)
Theorem colon_free_reference_accepted (w : World) (path : string) :
  reference_urlparse w ->
  PyStr.forallb plain_char path = true ->
  valid_looking_paths w path = (Ok path, []).
Proof.
  intros Hw Hpath. unfold valid_looking_paths.
  rewrite (reference_urlparse_plain w path Hw Hpath).
  destruct (urlparse_colon_free path Hpath) as (parts & -> & Hscheme).
  rewrite Hscheme.
  rewrite (contains_delimiter_absent path)
    by (apply contains_absent;
        exact (forallb_impl _ _ _ plain_char_no_colon Hpath)).
  cbn [truthy truthy_string negb andb]. by rewrite Hscheme.
Qed.

(** A dotted path, and a text that names nothing. *)
Lemma colon_free_reference_accepted_witness :
  let w := Sample.world false false in
  reference_urlparse w
  /\ PyStr.forallb plain_char "detect_secrets.filters.common.is_invalid_file"
     = true
  /\ PyStr.forallb plain_char "no such filter!" = true
  /\ valid_looking_paths w "detect_secrets.filters.common.is_invalid_file"
     = (Ok "detect_secrets.filters.common.is_invalid_file", [])
  /\ valid_looking_paths w "no such filter!" = (Ok "no such filter!", []).
Proof.
  intros w. split; [by intros x _ _|]. split; [reflexivity|].
  split; [reflexivity|]. split.
  - exact (colon_free_reference_accepted w
             "detect_secrets.filters.common.is_invalid_file"
             (fun x _ _ => eq_refl) eq_refl).
  - exact (colon_free_reference_accepted w "no such filter!"
             (fun x _ _ => eq_refl) eq_refl).
Defined.

Lemma rsplit1_absent (c : ascii) (x : string) :
  PyStr.forallb (differs c) x = true -> PyStr.rsplit1 c x = None.
Proof.
  induction x as [|a x IH]; [done|]. cbn [PyStr.forallb PyStr.rsplit1].
  unfold differs at 1. intros [Ha Hx]%andb_true_iff.
  apply negb_true_iff in Ha. by rewrite (IH Hx), Ha.
Qed.

(** [(m + c + f).rsplit(c, 1)] when [f] holds no [c]. *)
Lemma rsplit1_last (c : ascii) (m f : string) :
  PyStr.forallb (differs c) f = true ->
  PyStr.rsplit1 c (m +:+ String c f) = Some (m, f).
Proof.
  intros Hf. induction m as [|a m IH].
  - change (EmptyString +:+ String c f) with (String c f).
    cbn [PyStr.rsplit1]. by rewrite (rsplit1_absent c f Hf), Ascii.eqb_refl.
  - change (String a m +:+ String c f) with (String a (m +:+ String c f)).
    cbn [PyStr.rsplit1]. by rewrite IH.
Qed.

(** X6. Under CPython's [urlparse], a reference written in ASCII
    without a colon, a square bracket and a dot is refused by the
    resolution as an invalid module path, whatever can be imported:
    there is no dot to split the function name off. *)
Theorem reference_without_dot_rejected (w : World) (path : string) :
  reference_urlparse w ->
  PyStr.forallb word_char path = true ->
  _raise_if_custom_filter_path_is_invalid w path
  = Raise (ArgumentTypeError "Invalid Python module path for custom filter.").
Proof.
  intros Hw Hpath. unfold _raise_if_custom_filter_path_is_invalid.
  rewrite (reference_urlparse_plain w path Hw
             (forallb_impl _ _ _ word_char_plain_char Hpath)).
  destruct (urlparse_colon_free path
              (forallb_impl _ _ _ word_char_plain_char Hpath))
    as (parts & -> & Hscheme).
  rewrite Hscheme. cbn [truthy truthy_string negb].
  by rewrite (rsplit1_absent "." path
                (forallb_impl _ _ _ word_char_no_dot Hpath)).
Qed.

(** The name of a function of an importable module, without the
    module. *)
Lemma reference_without_dot_rejected_witness :
  let w := Sample.world false false in
  reference_urlparse w
  /\ PyStr.forallb word_char "is_invalid_file" = true
  /\ valid_looking_paths w "is_invalid_file" = (Ok "is_invalid_file", [])
  /\ _raise_if_custom_filter_path_is_invalid w "is_invalid_file"
     = Raise (ArgumentTypeError
                "Invalid Python module path for custom filter.").
Proof.
  intros w. split; [by intros x _ _|]. split; [reflexivity|].
  split; [reflexivity|].
  exact (reference_without_dot_rejected w "is_invalid_file"
           (fun x _ _ => eq_refl) eq_refl).
Defined.

(** X7. Under CPython's [urlparse], the resolution of a dotted
    reference written in ASCII without a colon and a square bracket
    imports the text before its last dot and looks the text after it
    up: a module that is not found, a name the module does not bind and
    a name bound to something else than a Python function are refused,
    each with its message, any other exception of the import goes
    through, and a Python function is accepted. *)
Theorem dotted_reference_resolution (w : World) (m f : string) :
  reference_urlparse w ->
  PyStr.forallb plain_char m = true ->
  PyStr.forallb word_char f = true ->
  let path := m +:+ String "." f in
  (import_module w m = Raise ModuleNotFoundError ->
   _raise_if_custom_filter_path_is_invalid w path
   = Raise (ArgumentTypeError
              ("Cannot import " +:+ PyStr.dq +:+ path +:+ PyStr.dq
               +:+ " as custom filter.")))
  /\ (forall e, import_module w m = Raise e -> e <> ModuleNotFoundError ->
      _raise_if_custom_filter_path_is_invalid w path = Raise e)
  /\ (forall module, import_module w m = Ok module ->
      _raise_if_custom_filter_path_is_invalid w path
      = match getattr module f with
        | None =>
            Raise (ArgumentTypeError
                     ("No filter function named `" +:+ f +:+ "` found in "
                      +:+ PyStr.dq +:+ m +:+ PyStr.dq +:+ "."))
        | Some function =>
            if isfunction function then Ok tt
            else Raise (ArgumentTypeError
                          (path +:+ " is not a filter function."))
        end).
Proof.
  intros Hw Hm Hf path.
  assert (Hpath : PyStr.forallb plain_char path = true).
  { unfold path. rewrite forallb_append. cbn [PyStr.forallb].
    rewrite Hm, (forallb_impl _ _ _ word_char_plain_char Hf). reflexivity. }
  assert (Hrun : _raise_if_custom_filter_path_is_invalid w path
    = match import_module w m with
      | Raise ModuleNotFoundError =>
          Raise (ArgumentTypeError
                   ("Cannot import " +:+ PyStr.dq +:+ path +:+ PyStr.dq
                    +:+ " as custom filter."))
      | Raise e => Raise e
      | Ok module =>
          match getattr module f with
          | None =>
              Raise (ArgumentTypeError
                       ("No filter function named `" +:+ f +:+ "` found in "
                        +:+ PyStr.dq +:+ m +:+ PyStr.dq +:+ "."))
          | Some function =>
              if negb (isfunction function) then
                Raise (ArgumentTypeError
                         (path +:+ " is not a filter function."))
              else Ok tt
          end
      end).
  { unfold _raise_if_custom_filter_path_is_invalid.
    rewrite (reference_urlparse_plain w path Hw Hpath).
    destruct (urlparse_colon_free path Hpath) as (parts & -> & Hscheme).
    rewrite Hscheme. cbn [truthy truthy_string negb].
    unfold path at 1.
    by rewrite (rsplit1_last "." m f
                  (forallb_impl _ _ _ word_char_no_dot Hf)). }
  rewrite Hrun. split_and!.
  - by intros ->.
  - intros e -> Hne. by destruct e.
  - intros module ->. destruct (getattr module f) as [function|]; [|done].
    by destruct (isfunction function).
Qed.

(** The module [detect_secrets.filters.common] of the sample world. *)
Lemma dotted_reference_resolution_witness :
  let w := Sample.world false false in
  let m := "detect_secrets.filters.common" in
  reference_urlparse w
  /\ PyStr.forallb plain_char m = true
  /\ PyStr.forallb word_char "is_invalid_file" = true
  /\ import_module w m = Ok Sample.filters_common
  /\ _raise_if_custom_filter_path_is_invalid w
       "detect_secrets.filters.common.is_invalid_file" = Ok tt.
Proof.
  intros w m. split; [by intros x _ _|]. split; [reflexivity|].
  split; [reflexivity|]. split; [reflexivity|].
  exact (proj2 (proj2 (dotted_reference_resolution w m "is_invalid_file"
                         (fun x _ _ => eq_refl) eq_refl eq_refl))
           Sample.filters_common eq_refl).
Defined.

(** ** References with a scheme *)

Lemma scheme_char_path_char (a : ascii) :
  Urllib.scheme_char a = true -> path_char a = true.
Proof.
  destruct a as [[] [] [] [] [] [] [] []]; vm_compute; congruence.
Qed.

Lemma drop_append (p x : string) : PyStr.drop (String.length p) (p +:+ x) = x.
Proof.
  induction p as [|a p IH]; [by destruct x|].
  change (String a p +:+ x) with (String a (p +:+ x)).
  cbn [String.length PyStr.drop]. exact IH.
Qed.

(** A scheme name before a colon is taken for the scheme, in lower
    case. *)
Lemma split_scheme_named (sch rest : string) :
  scheme_name sch = true ->
  Urllib.split_scheme (sch +:+ String ":" rest) = (PyStr.lower sch, rest).
Proof.
  destruct sch as [|a s]; [discriminate|]. unfold scheme_name.
  intros [Ha Hall]%andb_true_iff. unfold Urllib.split_scheme.
  rewrite (find_colon_append (String a s) rest)
    by exact (forallb_impl _ _ _
                (fun c Hc => path_char_no_colon c (scheme_char_path_char c Hc))
                Hall).
  pose proof (take_append (String a s) (String ":" rest)) as Htake.
  pose proof (drop_append (String a s +:+ ":") rest) as Hdrop.
  rewrite length_append, Nat.add_comm, append_assoc in Hdrop.
  change (":" +:+ rest) with (String ":" rest) in Hdrop.
  change (String a s +:+ String ":" rest)
    with (String a (s +:+ String ":" rest)) in *.
  cbn [String.length Nat.add] in *.
  by rewrite Htake, Ha, Hall, Hdrop.
Qed.

Lemma symbol_scheme_reference (sch rest : string) :
  scheme_name sch = true ->
  PyStr.forallb symbol_char rest = true ->
  PyStr.forallb symbol_char (sch +:+ String ":" rest) = true.
Proof.
  intros Hsch Hrest.
  assert (Hall : PyStr.forallb Urllib.scheme_char sch = true).
  { destruct sch; [discriminate|]. unfold scheme_name in Hsch.
    by apply andb_true_iff in Hsch as [_ H]. }
  rewrite forallb_append. cbn [PyStr.forallb].
  rewrite (forallb_impl _ _ _
             (fun c Hc => path_char_symbol_char c
                            (scheme_char_path_char c Hc)) Hall), Hrest.
  reflexivity.
Qed.

Lemma urlparse_scheme (sch rest : string) :
  scheme_name sch = true ->
  PyStr.forallb symbol_char rest = true ->
  exists parts,
    Urllib.urlparse (sch +:+ String ":" rest) = Ok parts
    /\ Urllib.scheme parts = PyStr.lower sch.
Proof.
  intros Hsch Hrest.
  assert (Hall : PyStr.forallb Urllib.scheme_char sch = true).
  { destruct sch; [discriminate|]. unfold scheme_name in Hsch.
    by apply andb_true_iff in Hsch as [_ H]. }
  assert (Hraw : PyStr.forallb symbol_char (sch +:+ String ":" rest) = true).
  { rewrite forallb_append. cbn [PyStr.forallb].
    rewrite (forallb_impl _ _ _
               (fun c Hc => path_char_symbol_char c
                              (scheme_char_path_char c Hc)) Hall), Hrest.
    reflexivity. }
  unfold Urllib.urlparse.
  rewrite (lstrip_printable _ Hraw), (remove_printable _ Hraw).
  rewrite (split_scheme_named _ _ Hsch).
  assert (Hnet : PyStr.forallb symbol_char
            (if String.prefix "//" rest
             then Urllib.splitnetloc (PyStr.drop 2 rest)
             else (EmptyString, rest)).1 = true).
  { destruct (String.prefix "//" rest); [|done].
    by apply splitnetloc_parts, forallb_drop. }
  destruct (if String.prefix "//" rest
            then Urllib.splitnetloc (PyStr.drop 2 rest)
            else (EmptyString, rest)) as [net url].
  cbn [fst] in Hnet. rewrite (no_brackets _ Hnet).
  eexists. split; reflexivity.
Qed.

(** X8. Under CPython's [urlparse], a reference that starts with a
    scheme other than [file] and goes on with printable characters of
    ASCII other than the question mark, the hash and the square brackets
    is refused by the syntactic validation as no valid filter path,
    without a look at the file system; the scheme is compared in lower
    case, and a drive letter is a scheme. *)
Theorem foreign_scheme_rejected (w : World) (sch rest : string) :
  reference_urlparse w ->
  scheme_name sch = true ->
  PyStr.lower sch <> "file" ->
  PyStr.forallb symbol_char rest = true ->
  valid_looking_paths w (sch +:+ String ":" rest)
  = (Raise (ArgumentTypeError
              ((sch +:+ String ":" rest) +:+ " is not a valid filter path.")),
     []).
Proof.
  intros Hw Hsch Hne Hrest. unfold valid_looking_paths.
  rewrite (reference_urlparse_symbol w _ Hw
             (symbol_scheme_reference sch rest Hsch Hrest)).
  destruct (urlparse_scheme sch rest Hsch Hrest) as (parts & -> & Hscheme).
  assert (Htruthy : truthy (PyStr.lower sch) = true)
    by (by destruct sch).
  rewrite Hscheme, Htruthy. cbn [negb andb].
  by rewrite Hscheme, (proj2 (String.eqb_neq _ _) Hne), Htruthy.
Qed.

(** A file on a drive of Windows, and a file on the web. *)
Lemma foreign_scheme_rejected_witness :
  let w := Sample.world false false in
  reference_urlparse w
  /\ scheme_name "C" = true /\ PyStr.lower "C" <> "file"
  /\ PyStr.forallb symbol_char "\filters.py::is_invalid_secret" = true
  /\ valid_looking_paths w "C:\filters.py::is_invalid_secret"
     = (Raise (ArgumentTypeError
                 "C:\filters.py::is_invalid_secret is not a valid filter path."),
        [])
  /\ valid_looking_paths w "https://example.com/filters.py::is_invalid_secret"
     = (Raise (ArgumentTypeError
                 ("https://example.com/filters.py::is_invalid_secret"
                  +:+ " is not a valid filter path.")),
        []).
Proof.
  intros w. split; [by intros x _ _|]. split; [reflexivity|].
  split; [by vm_compute|]. split; [reflexivity|]. split.
  - exact (foreign_scheme_rejected w "C" "\filters.py::is_invalid_secret"
             (fun x _ _ => eq_refl) eq_refl ltac:(by vm_compute) eq_refl).
  - exact (foreign_scheme_rejected w "https"
             "//example.com/filters.py::is_invalid_secret"
             (fun x _ _ => eq_refl) eq_refl ltac:(by vm_compute) eq_refl).
Defined.




(** ** References to local files that exist *)

Lemma path_of_directory (d f : string) :
  PyStr.forallb dir_char d = true ->
  PyStr.forallb path_char f = true ->
  PyStr.contains ":" (d +:+ String "/" f) = false.
Proof.
  intros Hd Hf. apply contains_absent. rewrite forallb_append.
  cbn [PyStr.forallb].
  rewrite (forallb_impl _ _ _
             (fun c Hc => path_char_no_colon c (dir_char_path_char c Hc)) Hd).
  by rewrite (forallb_impl _ _ _ path_char_no_colon Hf).
Qed.

(** The components of [p::s] when [p] holds no colon and [s] no
    delimiter. *)
Lemma split_path_and_symbol (p s : string) :
  PyStr.contains ":" p = false ->
  PyStr.contains "::" s = false ->
  PyStr.split "::" (p +:+ ("::" +:+ s)) = [p; s].
Proof.
  intros Hp Hs. rewrite (split_delimiter _ _ Hp). unfold PyStr.split.
  by rewrite (split_from_single _ _ Hs).
Qed.

(** X10. Under CPython's [urlparse], let the reference be
    [dir/file::symbol], written with printable characters of ASCII
    other than the question mark, the hash and the square brackets,
    with no colon before the delimiter, no slash in [dir] and no further
    delimiter in the symbol.  When [dir/file] is a file, the reference passes the
    syntactic validation with and without the file scheme in front, the
    string returned has the scheme in front either way, and the file
    system is asked about [dir/file] only. *)
Theorem existing_file_reference_accepted (w : World) (d f s : string) :
  reference_urlparse w ->
  PyStr.forallb dir_char d = true ->
  PyStr.forallb path_char f = true ->
  PyStr.forallb symbol_char s = true ->
  PyStr.contains "::" s = false ->
  isfile w (d +:+ String "/" f) = true ->
  let raw := (d +:+ String "/" f) +:+ ("::" +:+ s) in
  valid_looking_paths w raw
  = (Ok (FILE_SCHEME +:+ raw), [d +:+ String "/" f])
  /\ valid_looking_paths w (FILE_SCHEME +:+ raw)
     = (Ok (FILE_SCHEME +:+ raw), [d +:+ String "/" f]).
Proof.
  intros Hw Hd Hf Hs Hsym Hfile raw.
  pose proof (path_of_directory d f Hd Hf) as Hp.
  assert (Hcount : length (PyStr.split "::" (String "/" f +:+ ("::" +:+ s)))
                   = 2).
  { rewrite split_path_and_symbol; [reflexivity| |exact Hsym].
    apply contains_absent.
    apply (forallb_impl path_char); [apply path_char_no_colon|].
    cbn [PyStr.forallb]. by rewrite Hf. }
  assert (Hchecked :
    (if String.eqb "file" "file" then
       if negb (Nat.eqb
                  (length (PyStr.split "::" (String "/" f +:+ ("::" +:+ s))))
                  2)
       then (Raise (ArgumentTypeError
                      "Did not specify function name for imported file."),
             [])
       else
         let file_path :=
           hd EmptyString
             (PyStr.split "::"
                (PyStr.drop (String.length FILE_SCHEME)
                   (FILE_SCHEME +:+ raw))) in
         if negb (isfile w file_path) then
           (Raise (ArgumentTypeError (file_path +:+ " is not a valid file.")),
            [file_path])
         else (Ok (FILE_SCHEME +:+ raw), [file_path])
     else if truthy "file" then
       (Raise (ArgumentTypeError
                 ((FILE_SCHEME +:+ raw) +:+ " is not a valid filter path.")),
        [])
     else (Ok (FILE_SCHEME +:+ raw), []))
    = (Ok (FILE_SCHEME +:+ raw), [d +:+ String "/" f])).
  { rewrite Hcount. cbn [String.eqb Ascii.eqb Bool.eqb Nat.eqb negb].
    change (PyStr.drop (String.length FILE_SCHEME) (FILE_SCHEME +:+ raw))
      with raw.
    unfold raw. rewrite (split_path_and_symbol _ _ Hp Hsym). cbn [hd].
    by rewrite Hfile. }
  subst raw.
  pose proof (symbol_reference d f s Hd Hf Hs) as Hraw.
  pose proof (symbol_behind_file_scheme _ Hraw) as Hraw'.
  split.
  - unfold valid_looking_paths.
    rewrite (reference_urlparse_symbol w _ Hw Hraw).
    destruct (urlparse_schemeless d f s Hd Hf Hs) as (parts & -> & Hscheme).
    rewrite Hscheme, contains_delimiter.
    cbn [truthy truthy_string negb andb].
    rewrite (reference_urlparse_symbol w _ Hw Hraw').
    rewrite (urlparse_file_scheme d f s Hd Hf Hs).
    cbn [Urllib.scheme Urllib.path]. exact Hchecked.
  - unfold valid_looking_paths.
    rewrite (reference_urlparse_symbol w _ Hw Hraw').
    rewrite (urlparse_file_scheme d f s Hd Hf Hs).
    cbn [Urllib.scheme Urllib.path truthy truthy_string negb andb].
    exact Hchecked.
Qed.

(** The file of the sample checkout. *)
Lemma existing_file_reference_accepted_witness :
  let w := Sample.world false false in
  reference_urlparse w
  /\ PyStr.forallb dir_char "testing" = true
  /\ PyStr.forallb path_char "custom_filters.py" = true
  /\ PyStr.forallb symbol_char "is_invalid_secret" = true
  /\ PyStr.contains "::" "is_invalid_secret" = false
  /\ isfile w "testing/custom_filters.py" = true
  /\ valid_looking_paths w "testing/custom_filters.py::is_invalid_secret"
     = (Ok "file://testing/custom_filters.py::is_invalid_secret",
        ["testing/custom_filters.py"])
  /\ valid_looking_paths w
       "file://testing/custom_filters.py::is_invalid_secret"
     = (Ok "file://testing/custom_filters.py::is_invalid_secret",
        ["testing/custom_filters.py"]).
Proof.
  intros w.
  split; [by intros x _ _|]. split; [reflexivity|]. split; [reflexivity|].
  split; [reflexivity|]. split; [reflexivity|]. split; [reflexivity|].
  exact (existing_file_reference_accepted w "testing" "custom_filters.py"
           "is_invalid_secret" (fun x _ _ => eq_refl) eq_refl eq_refl eq_refl
           eq_refl eq_refl).
Defined.

(** X11. Under CPython's [urlparse], the resolution of such a
    reference, written in ASCII, with the file scheme in front imports
    the file [dir/file]
    and looks [symbol] up in it, the file and the symbol that the
    syntactic validation has checked: a file that is not found or is
    invalid and a name the file does not bind are refused, each with its
    message, and any name the file binds is accepted. *)
Theorem file_reference_resolution (w : World) (d f s : string) :
  reference_urlparse w ->
  PyStr.forallb dir_char d = true ->
  PyStr.forallb path_char f = true ->
  PyStr.forallb symbol_char s = true ->
  PyStr.contains "::" s = false ->
  let file_path := d +:+ String "/" f in
  let path := FILE_SCHEME +:+ (file_path +:+ ("::" +:+ s)) in
  (import_file_as_module w file_path = Raise FileNotFoundError
   \/ import_file_as_module w file_path = Raise InvalidFile ->
   _raise_if_custom_filter_path_is_invalid w path
   = Raise (ArgumentTypeError
              ("Cannot import " +:+ file_path +:+ " as custom filter.")))
  /\ (forall module, import_file_as_module w file_path = Ok module ->
      _raise_if_custom_filter_path_is_invalid w path
      = match getattr module s with
        | None =>
            Raise (ArgumentTypeError
                     ("No filter function named `" +:+ s +:+ "` found in "
                      +:+ PyStr.dq +:+ file_path +:+ PyStr.dq +:+ "."))
        | Some _ => Ok tt
        end).
Proof.
  intros Hw Hd Hf Hs Hsym file_path path.
  pose proof (path_of_directory d f Hd Hf) as Hp.
  assert (Hrun : _raise_if_custom_filter_path_is_invalid w path
    = match import_file_as_module w file_path with
      | Raise FileNotFoundError | Raise InvalidFile =>
          Raise (ArgumentTypeError
                   ("Cannot import " +:+ file_path +:+ " as custom filter."))
      | Raise e => Raise e
      | Ok module =>
          match getattr module s with
          | None =>
              Raise (ArgumentTypeError
                       ("No filter function named `" +:+ s +:+ "` found in "
                        +:+ PyStr.dq +:+ file_path +:+ PyStr.dq +:+ "."))
          | Some _ => Ok tt
          end
      end).
  { unfold _raise_if_custom_filter_path_is_invalid.
    rewrite (reference_urlparse_symbol w path Hw
               (symbol_behind_file_scheme _
                  (symbol_reference d f s Hd Hf Hs))).
    unfold path at 1, file_path at 1.
    rewrite (urlparse_file_scheme d f s Hd Hf Hs).
    cbn [Urllib.scheme truthy truthy_string negb String.eqb Ascii.eqb
         Bool.eqb].
    change (PyStr.drop (String.length FILE_SCHEME) path)
      with (file_path +:+ ("::" +:+ s)).
    unfold file_path at 1.
    by rewrite (split_path_and_symbol _ _ Hp Hsym). }
  rewrite Hrun. split.
  - by intros [-> | ->].
  - by intros module ->.
Qed.

(** The file of the sample checkout: its function, its constant and a
    name it does not bind. *)
Lemma file_reference_resolution_witness :
  let w := Sample.world false false in
  reference_urlparse w
  /\ PyStr.forallb dir_char "testing" = true
  /\ PyStr.forallb path_char "custom_filters.py" = true
  /\ PyStr.forallb symbol_char "no_such_filter" = true
  /\ PyStr.contains "::" "no_such_filter" = false
  /\ import_file_as_module w "testing/custom_filters.py"
     = Ok Sample.custom_filters_py
  /\ _raise_if_custom_filter_path_is_invalid w
       "file://testing/custom_filters.py::no_such_filter"
     = Raise (ArgumentTypeError
                ("No filter function named `no_such_filter` found in "
                 +:+ PyStr.dq +:+ "testing/custom_filters.py" +:+ PyStr.dq
                 +:+ ".")).
Proof.
  intros w.
  split; [by intros x _ _|]. split; [reflexivity|]. split; [reflexivity|].
  split; [reflexivity|]. split; [reflexivity|]. split; [reflexivity|].
  exact (proj2 (file_reference_resolution w "testing" "custom_filters.py"
                  "no_such_filter" (fun x _ _ => eq_refl) eq_refl eq_refl eq_refl
                  eq_refl)
           Sample.custom_filters_py eq_refl).
Defined.

(** ** What [parse_args] leaves alone *)

Lemma keeps_bind {A B X} (proj : State -> X) (m : M A) (f : A -> M B) :
  keeps proj m -> (forall a, keeps proj (f a)) -> keeps proj (m ≫= f).
Proof.
  intros Hm Hf st. rewrite bind_run. specialize (Hm st).
  destruct (m st) as [[a|e] st']; cbn [snd] in *; [|exact Hm].
  by rewrite Hf.
Qed.

Lemma keeps_pass {X} (proj : State -> X) : keeps proj pass.
Proof. by intros st. Qed.

Lemma keeps_if_truthy {A X} `{Truthy A} (proj : State -> X) (o : option A)
    (body : A -> M unit) :
  (forall a, keeps proj (body a)) -> keeps proj (if_truthy o body).
Proof.
  intros Hbody. unfold if_truthy. destruct o as [a|]; [|apply keeps_pass].
  destruct (truthy a); [apply Hbody|apply keeps_pass].
Qed.

(** The bootstrap block changes what its [initialize] calls and its
    two assignments change, and nothing else. *)
Lemma initialize_optional_filters_keeps {X} (proj : State -> X) (w : World)
    (args : Args) :
  (forall c, keeps proj (call_initialize w c)) ->
  (forall n st, proj (with_num_cores n st) = proj st) ->
  (forall m st, proj (with_start_method m st) = proj st) ->
  keeps proj (initialize_optional_filters w args).
Proof.
  intros Hcall Hcores Hmethod. unfold initialize_optional_filters.
  apply keeps_bind; [|intros _; apply keeps_bind; [|intros _]].
  - destruct (wordlist_is_feature_enabled w); [|apply keeps_pass].
    apply keeps_if_truthy. intros file. apply Hcall.
  - destruct (gibberish_is_feature_enabled w); [apply Hcall|apply keeps_pass].
  - destruct (classifier_is_feature_ready w args); [|apply keeps_pass].
    apply keeps_bind; [intros st; apply Hcores|intros _].
    apply keeps_bind; [intros st; apply Hmethod|intros _]. apply Hcall.
Qed.

(** The blocks that write the registry leave alone what does not depend
    on the registry. *)
Lemma registry_blocks_keep {X} (proj : State -> X) (w : World) (args : Args) :
  (forall f st, proj (with_filters f st) = proj st) ->
  keeps proj (register_exclude_patterns args)
  /\ keeps proj (apply_verification_policy w args)
  /\ keeps proj (register_custom_filters w args).
Proof.
  intros Hproj. split_and!; intros st.
  - destruct (register_exclude_patterns_returns args st) as [f ->].
    apply Hproj.
  - rewrite apply_verification_policy_run. apply Hproj.
  - destruct (register_custom_filters_some w args st)
      as (r & done_ & _ & ->).
    apply Hproj.
Qed.

Lemma disable_listed_filters_keeps {X} (proj : State -> X) (args : Args) :
  (forall f st, proj (with_filters f st) = proj st) ->
  (forall l st, proj (with_warnings l st) = proj st) ->
  keeps proj (disable_listed_filters args).
Proof.
  intros Hfilters Hwarnings st. rewrite disable_listed_filters_run.
  destruct (disable_filter args) as [[|item items]|]; try reflexivity.
  cbv zeta. cbn [snd]. by rewrite Hfilters, Hwarnings.
Qed.

Lemma set_filter_keeps_entry (k name : string) (params : Params) :
  name <> k -> keeps (entry k) (set_filter name params).
Proof.
  intros Hne st. unfold entry, set_filter. cbn [snd filters with_filters].
  by rewrite lookup_insert_ne.
Qed.

Lemma call_initialize_keeps_entry (w : World) (k : string) (c : Call) :
  (forall c f, (initialize w c f).2 !! k = f !! k) ->
  keeps (entry k) (call_initialize w c).
Proof.
  intros Hinit st. unfold entry, call_initialize.
  specialize (Hinit c (filters st)).
  by destruct (initialize w c (filters st)) as [r f].
Qed.

Lemma register_exclude_patterns_keeps_entry (k : string) (args : Args) :
  k ∉ regex_filters -> keeps (entry k) (register_exclude_patterns args).
Proof.
  intros Hk. unfold register_exclude_patterns.
  assert (Hset : forall name params,
            name ∈ regex_filters -> keeps (entry k) (set_filter name params)).
  { intros name params Hin. apply set_filter_keeps_entry.
    intros ->. by apply Hk. }
  apply keeps_bind; [|intros _; apply keeps_bind; [|intros _]];
    apply keeps_if_truthy; intros patterns; apply Hset; compute_done.
Qed.

Lemma apply_verification_policy_keeps_entry (w : World) (k : string)
    (args : Args) :
  k <> VERIFICATION_FILTER ->
  keeps (entry k) (apply_verification_policy w args).
Proof.
  intros Hk st. rewrite apply_verification_policy_run.
  unfold entry, verification_policy. cbn [snd filters with_filters].
  destruct (no_verify args).
  - by rewrite lookup_delete_ne.
  - by rewrite lookup_insert_ne.
Qed.

Lemma disable_listed_filters_keeps_entry (k : string) (args : Args) :
  k ∉ disabled_names args -> keeps (entry k) (disable_listed_filters args).
Proof.
  intros Hk st. rewrite disable_listed_filters_run. unfold disabled_names in Hk.
  destruct (disable_filter args) as [[|item items]|]; try reflexivity.
  cbv zeta. unfold entry. cbn [snd filters with_filters with_warnings].
  rewrite disabled_lookup. by rewrite bool_decide_eq_false_2.
Qed.

Lemma register_custom_filters_keeps_entry (w : World) (k : string)
    (args : Args) :
  k ∉ custom_names args -> keeps (entry k) (register_custom_filters w args).
Proof.
  intros Hk st.
  destruct (register_custom_filters_some w args st)
    as (r & done_ & Hsub & ->).
  unfold entry. cbn [snd filters with_filters]. rewrite registered_lookup.
  rewrite bool_decide_eq_false_2; [reflexivity|].
  intros Hin. by apply Hk, Hsub.
Qed.

(** The blocks after the exclude patterns leave alone the entry of a
    filter that the options do not name. *)
Lemma later_blocks_keep_entry (w : World) (k : string) (args : Args) :
  (forall c f, (initialize w c f).2 !! k = f !! k) ->
  k <> VERIFICATION_FILTER ->
  k ∉ disabled_names args ->
  k ∉ custom_names args ->
  keeps (entry k)
    (initialize_optional_filters w args ;; apply_verification_policy w args ;;
     disable_listed_filters args ;; register_custom_filters w args).
Proof.
  intros Hinit Hver Hdis Hcus.
  apply keeps_bind; [|intros _; apply keeps_bind; [|intros _;
    apply keeps_bind; [|intros _]]].
  - apply initialize_optional_filters_keeps; try done.
    intros c. by apply call_initialize_keeps_entry.
  - by apply apply_verification_policy_keeps_entry.
  - by apply disable_listed_filters_keeps_entry.
  - by apply register_custom_filters_keeps_entry.
Qed.

(** X12. Whatever the outcome of [parse_args], the entry of a filter
    that is no exclude-pattern filter and not the verification filter,
    that neither the disable list nor the custom filters name and that
    the [initialize] functions leave alone is after the call what it was
    before it: present with the same parameters, or absent. *)
Theorem parse_args_keeps_other_entries (w : World) (args : Args) (st : State)
    (k : string) :
  (forall c f, (initialize w c f).2 !! k = f !! k) ->
  k ∉ regex_filters ->
  k <> VERIFICATION_FILTER ->
  k ∉ disabled_names args ->
  k ∉ custom_names args ->
  filters (parse_args w args st).2 !! k = filters st !! k.
Proof.
  intros Hinit Hregex Hver Hdis Hcus.
  apply (keeps_bind (entry k)).
  - by apply register_exclude_patterns_keeps_entry.
  - intros _. by apply later_blocks_keep_entry.
Qed.

(** A registry that holds a filter of the baseline; the options set a
    pattern, disable a filter and add a custom filter that does not
    resolve. *)
Lemma parse_args_keeps_other_entries_witness :
  let w := Sample.world true false in
  let k := "detect_secrets.filters.heuristic.is_sequential_string" in
  let args := {|
    exclude_lines := Some ["password"]; exclude_files := None;
    exclude_secrets := None;
    word_list_file := None; gibberish_model_file := None;
    gibberish_limit := None; huggingface_model := None; threshold := None;
    huggingface_token := None; no_verify := true; only_verified := false;
    disable_filter :=
      Some [["detect_secrets.filters.heuristic.is_potential_uuid"]];
    custom_filter := Some [["detect_secrets.filters.common.no_such_filter"]]
  |} in
  let st := with_filters {[ k := ∅ ]} Sample.fresh in
  (forall c f, (initialize w c f).2 !! k = f !! k)
  /\ (k ∉ regex_filters)
  /\ k <> VERIFICATION_FILTER
  /\ (k ∉ disabled_names args)
  /\ (k ∉ custom_names args)
  /\ filters (parse_args w args st).2 !! k = Some ∅.
Proof.
  intros w k args st.
  assert (Hinit : forall c f, (initialize w c f).2 !! k = f !! k)
    by (intros c f; reflexivity).
  assert (Hregex : k ∉ regex_filters) by compute_done.
  assert (Hver : k <> VERIFICATION_FILTER) by discriminate.
  assert (Hdis : k ∉ disabled_names args) by compute_done.
  assert (Hcus : k ∉ custom_names args) by compute_done.
  split; [exact Hinit|]. split; [exact Hregex|]. split; [exact Hver|].
  split; [exact Hdis|]. split; [exact Hcus|].
  exact (parse_args_keeps_other_entries w args st k
           Hinit Hregex Hver Hdis Hcus).
Defined.

(** ** The exclude patterns *)

Lemma register_exclude_patterns_entry (args : Args) (st : State)
    (key : string) (o : option (list string)) :
  (key, o) ∈ exclude_options args ->
  exists st1,
    register_exclude_patterns args st = (Ok tt, st1)
    /\ entry key st1
       = match o with
         | Some (p :: l) => Some {[ "pattern" := VStrList (p :: l) ]}
         | _ => entry key st
         end.
Proof.
  unfold exclude_options. rewrite !elem_of_cons, elem_of_nil.
  unfold register_exclude_patterns, if_truthy, set_filter, pass, entry,
    mbind, M_bind, mret, M_ret.
  intros [[= -> ->]|[[= -> ->]|[[= -> ->]|[]]]];
    destruct (exclude_lines args) as [[|p1 l1]|],
             (exclude_files args) as [[|p2 l2]|],
             (exclude_secrets args) as [[|p3 l3]|];
    cbn [truthy truthy_list]; eexists; (split; [reflexivity|]);
    cbn [filters with_filters];
    rewrite ?lookup_insert_ne by discriminate;
    rewrite ?lookup_insert_eq; reflexivity.
Qed.

(** X13. An exclude option that is given with at least one pattern
    registers its filter with the patterns as the [pattern] parameter,
    in place of what the registry held; an option that is not given, or
    is given empty, leaves the entry of its filter as it was.  This is
    the state after the whole call, provided the disable list and the
    custom filters do not name the filter and the [initialize]
    functions leave its entry alone. *)
Theorem exclude_patterns_registered (w : World) (args : Args) (st : State)
    (key : string) (o : option (list string)) :
  (key, o) ∈ exclude_options args ->
  (forall c f, (initialize w c f).2 !! key = f !! key) ->
  key ∉ disabled_names args ->
  key ∉ custom_names args ->
  filters (parse_args w args st).2 !! key
  = match o with
    | Some (p :: l) => Some {[ "pattern" := VStrList (p :: l) ]}
    | _ => filters st !! key
    end.
Proof.
  intros Hin Hinit Hdis Hcus.
  destruct (register_exclude_patterns_entry args st key o Hin)
    as (st1 & Hrun & Hentry).
  unfold parse_args. rewrite (bind_ok _ _ _ _ _ Hrun).
  change (entry key
            ((initialize_optional_filters w args ;;
              apply_verification_policy w args ;;
              disable_listed_filters args ;;
              register_custom_filters w args) st1).2
          = match o with
            | Some (p :: l) => Some {[ "pattern" := VStrList (p :: l) ]}
            | _ => entry key st
            end).
  rewrite <- Hentry. apply later_blocks_keep_entry; try done.
  unfold exclude_options in Hin. rewrite !elem_of_cons, elem_of_nil in Hin.
  by destruct Hin as [[= -> _]|[[= -> _]|[[= -> _]|[]]]].
Qed.

(** A registry that holds patterns for lines and for files from a
    baseline; the options give new patterns for lines and none for
    files. *)
Lemma exclude_patterns_registered_witness :
  let w := Sample.world false false in
  let line := "detect_secrets.filters.regex.should_exclude_line" in
  let file := "detect_secrets.filters.regex.should_exclude_file" in
  let args := {|
    exclude_lines := Some ["password"; "token"]; exclude_files := Some [];
    exclude_secrets := None;
    word_list_file := None; gibberish_model_file := None;
    gibberish_limit := None; huggingface_model := None; threshold := None;
    huggingface_token := None; no_verify := false; only_verified := false;
    disable_filter := None; custom_filter := None |} in
  let st :=
    with_filters {[ line := {[ "pattern" := VStrList ["old"] ]};
                    file := {[ "pattern" := VStrList ["\.lock$"] ]} ]}
      Sample.fresh in
  (line, Some ["password"; "token"]) ∈ exclude_options args
  /\ (file, Some []) ∈ exclude_options args
  /\ filters (parse_args w args st).2 !! line
     = Some {[ "pattern" := VStrList ["password"; "token"] ]}
  /\ filters (parse_args w args st).2 !! file
     = Some {[ "pattern" := VStrList ["\.lock$"] ]}.
Proof.
  intros w line file args st.
  assert (Hline : (line, Some ["password"; "token"]) ∈ exclude_options args)
    by compute_done.
  assert (Hfile : (file, Some []) ∈ exclude_options args) by compute_done.
  split; [exact Hline|]. split; [exact Hfile|]. split.
  - exact (exclude_patterns_registered w args st line _ Hline
             (fun c f => eq_refl) ltac:(compute_done) ltac:(compute_done)).
  - exact (exclude_patterns_registered w args st file _ Hfile
             (fun c f => eq_refl) ltac:(compute_done) ltac:(compute_done)).
Defined.

(** ** The [initialize] calls *)

Lemma initialize_optional_filters_calls (w : World) (args : Args)
    (st : State) :
  initialize_returns w ->
  calls (initialize_optional_filters w args st).2
  = (calls st ++ expected_calls w args)%list.
Proof.
  intros Hret. unfold initialize_optional_filters, expected_calls, if_truthy.
  destruct (wordlist_is_feature_enabled w),
           (word_list_file args) as [file|],
           (gibberish_is_feature_enabled w),
           (classifier_is_feature_ready w args);
    try destruct (truthy file);
    repeat first
      [ rewrite bind_run
      | rewrite call_initialize_returns by exact Hret
      | progress (unfold pass; cbn [mret M_ret]) ];
    cbn [snd calls with_calls with_filters with_num_cores with_start_method
         app];
    rewrite ?app_nil_r, <- ?app_assoc; reflexivity.
Qed.

(** X14. In a run whose [initialize] calls return, [parse_args] calls
    the [initialize] function of the word list when the filter is
    enabled and a file that is not the empty string is given, with the
    file as its one positional argument, then the one of the gibberish
    filter whenever the filter is enabled, whether or not an option of
    it is given, then the one of the classifier when it is ready, the
    last two with their keyword arguments: each at most once, in this
    order, and no other. *)
Theorem initialize_calls_in_order (w : World) (args : Args) (st : State) :
  initialize_returns w ->
  calls (parse_args w args st).2
  = (calls st ++ expected_calls w args)%list.
Proof.
  intros Hret.
  destruct (registry_blocks_keep calls w args (fun f st => eq_refl))
    as (Hpatterns & Hpolicy & Hcustom).
  pose proof (disable_listed_filters_keeps calls args
                (fun f st => eq_refl) (fun l st => eq_refl)) as Hdisable.
  destruct (register_exclude_patterns_returns args st) as [f0 H0].
  unfold parse_args. rewrite (bind_ok _ _ _ _ _ H0).
  destruct (initialize_optional_filters_returns w args (with_filters f0 st)
              Hret) as (st1 & H1 & _).
  rewrite (bind_ok _ _ _ _ _ H1).
  transitivity (calls st1).
  - apply (keeps_bind calls); [exact Hpolicy|intros _].
    apply keeps_bind; [exact Hdisable|intros _; exact Hcustom].
  - pose proof (initialize_optional_filters_calls w args (with_filters f0 st)
                  Hret) as Hcalls.
    by rewrite H1 in Hcalls.
Qed.

(** No option of the optional filters is given: the gibberish filter
    is initialized all the same, with no argument, and then the
    classifier. *)
Lemma initialize_calls_in_order_witness :
  let w := Sample.world true false in
  initialize_returns w
  /\ calls (parse_args w Sample.no_options Sample.fresh).2
     = [{| callee := "gibberish"; posargs := []; kwargs := ∅ |};
        {| callee := "classifier"; posargs := []; kwargs := ∅ |}].
Proof.
  intros w.
  assert (Hret : initialize_returns w) by (intros c f; reflexivity).
  split; [exact Hret|].
  exact (initialize_calls_in_order w Sample.no_options Sample.fresh Hret).
Defined.

(** ** The verification filter in the disable list *)

(** X15. In a run whose [initialize] calls return and whose disable
    list names the verification filter, the redundancy warning for the
    filter is given exactly when verification is disabled by its flag
    too, since the flag has removed the filter by then; without the flag
    the filter is registered first and removed by the list in silence.
    Either way it is not registered at the end, unless the custom
    filters name it. *)
Theorem verification_filter_in_disable_list (w : World) (args : Args)
    (st : State) :
  initialize_returns w ->
  VERIFICATION_FILTER ∈ disabled_names args ->
  exists new,
    warnings (parse_args w args st).2 = (warnings st ++ new)%list
    /\ (redundant_warning VERIFICATION_FILTER ∈ new <-> no_verify args = true)
    /\ (VERIFICATION_FILTER ∉ custom_names args ->
        filters (parse_args w args st).2 !! VERIFICATION_FILTER = None).
Proof.
  intros Hret Hin.
  destruct (parse_args_run w args st Hret)
    as (st1 & st3 & r & done_ & _ & _ & Hw1 & H3 & _ & Hsub & _ & ->).
  rewrite disable_listed_filters_run in H3. unfold disabled_names in Hin.
  destruct (disable_filter args) as [[|item items]|];
    try (by apply elem_of_nil in Hin).
  cbn [default from_option id] in Hin. cbv zeta in H3. injection H3 as <-.
  exists (map redundant_warning
            (redundant (concat (item :: items))
               (verification_policy w args (filters st1)))).
  split_and!.
  - cbn [snd warnings with_filters with_warnings filters]. by rewrite Hw1.
  - rewrite (list_elem_of_fmap_inj redundant_warning), elem_of_redundant.
    unfold verification_policy. destruct (no_verify args).
    + rewrite lookup_delete_eq. by split.
    + rewrite lookup_insert_eq. split; [by intros [_ ?]|discriminate].
  - intros Hcus. cbn [snd filters with_filters with_warnings].
    rewrite registered_lookup.
    rewrite bool_decide_eq_false_2 by (intros Hdone; apply Hcus, Hsub, Hdone).
    rewrite disabled_lookup. by rewrite bool_decide_eq_true_2.
Qed.

(** The flag and the list together. *)
Lemma verification_filter_in_disable_list_witness :
  let w := Sample.world false false in
  let args := {|
    exclude_lines := None; exclude_files := None; exclude_secrets := None;
    word_list_file := None; gibberish_model_file := None;
    gibberish_limit := None; huggingface_model := None; threshold := None;
    huggingface_token := None; no_verify := true; only_verified := false;
    disable_filter := Some [[VERIFICATION_FILTER]]; custom_filter := None |} in
  initialize_returns w
  /\ VERIFICATION_FILTER ∈ disabled_names args
  /\ exists new,
       warnings (parse_args w args Sample.fresh).2
       = (warnings Sample.fresh ++ new)%list
       /\ (redundant_warning VERIFICATION_FILTER ∈ new
           <-> no_verify args = true)
       /\ (VERIFICATION_FILTER ∉ custom_names args ->
           filters (parse_args w args Sample.fresh).2 !! VERIFICATION_FILTER
           = None).
Proof.
  intros w args.
  assert (Hret : initialize_returns w) by (intros c f; reflexivity).
  assert (Hin : VERIFICATION_FILTER ∈ disabled_names args) by compute_done.
  split; [exact Hret|]. split; [exact Hin|].
  exact (verification_filter_in_disable_list w args Sample.fresh Hret Hin).
Defined.

(** ** The start method of the worker processes *)

(** X16. In a run whose [initialize] calls return, the start method of
    [torch.multiprocessing] is forced to [spawn] when the classifier is
    ready, with or without an accelerator; when it is not ready, the
    start method and [args.num_cores] are left as they were. *)
Theorem start_method_follows_readiness (w : World) (args : Args)
    (st : State) :
  initialize_returns w ->
  start_method (parse_args w args st).2
  = (if classifier_is_feature_ready w args
     then Some "spawn" else start_method st)
  /\ (classifier_is_feature_ready w args = false ->
      num_cores (parse_args w args st).2 = num_cores st).
Proof.
  intros Hret.
  destruct (register_exclude_patterns_returns args st) as [f0 H0].
  destruct (initialize_optional_filters_returns w args (with_filters f0 st)
              Hret) as (st1 & H1 & _ & Hcores & Hmethod).
  assert (Hlater : forall X (proj : State -> X),
            (forall f st, proj (with_filters f st) = proj st) ->
            (forall l st, proj (with_warnings l st) = proj st) ->
            proj (parse_args w args st).2 = proj st1).
  { intros X proj Hfilters Hwarnings.
    destruct (registry_blocks_keep proj w args Hfilters)
      as (_ & Hpolicy & Hcustom).
    unfold parse_args.
    rewrite (bind_ok _ _ _ _ _ H0), (bind_ok _ _ _ _ _ H1).
    apply (keeps_bind proj); [exact Hpolicy|intros _].
    apply keeps_bind; [|intros _; exact Hcustom].
    by apply disable_listed_filters_keeps. }
  split.
  - rewrite (Hlater _ start_method) by done. exact Hmethod.
  - intros Hready. rewrite (Hlater _ num_cores) by done.
    by rewrite Hcores, Hready.
Qed.

(** With the classifier ready and without it, from a state in which
    another start method is set. *)
Lemma start_method_follows_readiness_witness :
  let st := with_start_method (Some "fork") Sample.fresh in
  initialize_returns (Sample.world true false)
  /\ start_method
       (parse_args (Sample.world true false) Sample.no_options st).2
     = Some "spawn"
  /\ start_method
       (parse_args (Sample.world false false) Sample.no_options st).2
     = Some "fork".
Proof.
  intros st.
  assert (Hret : forall ready, initialize_returns (Sample.world ready false))
    by (intros ready c f; reflexivity).
  split; [apply Hret|]. split.
  - exact (proj1 (start_method_follows_readiness (Sample.world true false)
                    Sample.no_options st (Hret true))).
  - exact (proj1 (start_method_follows_readiness (Sample.world false false)
                    Sample.no_options st (Hret false))).
Defined.

Lemma call_initialize_run (w : World) (c : Call) (st : State) :
  call_initialize w c st
  = ((initialize w c (filters st)).1,
     with_filters (initialize w c (filters st)).2
       (with_calls (calls st ++ [c]) st)).
Proof.
  unfold call_initialize. by destruct (initialize w c (filters st)).
Qed.

(** X17. The classifier block sets the worker count and the start
    method before it calls the [initialize] function of the classifier:
    when that call raises, after the calls for the other filters have
    returned, [parse_args] ends with its exception, the start method is
    [spawn] and the worker count is set all the same, no warning has
    been given, and the verification block has not run. *)
Theorem failed_classifier_leaves_spawn (w : World) (args : Args) (st : State)
    (e : exn) :
  classifier_is_feature_ready w args = true ->
  (forall c f, callee c <> "classifier" -> (initialize w c f).1 = Ok tt) ->
  (forall c f, callee c = "classifier" -> (initialize w c f).1 = Raise e) ->
  (parse_args w args st).1 = Raise e
  /\ start_method (parse_args w args st).2 = Some "spawn"
  /\ num_cores (parse_args w args st).2
     = Some (if cuda_is_available w then [3%Z] else [1%Z])
  /\ warnings (parse_args w args st).2 = warnings st
  /\ ((forall c f, (initialize w c f).2 !! VERIFICATION_FILTER
                   = f !! VERIFICATION_FILTER) ->
      filters (parse_args w args st).2 !! VERIFICATION_FILTER
      = filters st !! VERIFICATION_FILTER).
Proof.
  intros Hready Hothers Hclassifier.
  destruct (register_exclude_patterns_returns args st) as [f0 H0].
  assert (Hrun : exists f1 l1,
    initialize_optional_filters w args (with_filters f0 st)
    = (Raise e,
       with_filters f1
         (with_calls l1
            (with_start_method (Some "spawn")
               (with_num_cores
                  (Some (if cuda_is_available w then [3%Z] else [1%Z]))
                  st))))).
  { unfold initialize_optional_filters, if_truthy. rewrite Hready.
    destruct (wordlist_is_feature_enabled w),
             (word_list_file args) as [file|],
             (gibberish_is_feature_enabled w);
      try destruct (truthy file);
      repeat first
        [ rewrite bind_run
        | rewrite call_initialize_run
        | rewrite Hothers by discriminate
        | rewrite Hclassifier by reflexivity
        | progress (unfold pass; cbn [mret M_ret]) ];
      eexists _, _; reflexivity. }
  destruct Hrun as (f1 & l1 & H1).
  assert (Hall : parse_args w args st
    = (Raise e,
       with_filters f1
         (with_calls l1
            (with_start_method (Some "spawn")
               (with_num_cores
                  (Some (if cuda_is_available w then [3%Z] else [1%Z]))
                  st))))).
  { unfold parse_args.
    by rewrite (bind_ok _ _ _ _ _ H0), (bind_raise _ _ _ _ _ H1). }
  split_and!; try (by rewrite Hall).
  intros Hinit.
  pose proof (initialize_optional_filters_keeps (entry VERIFICATION_FILTER)
                w args
                (fun c => call_initialize_keeps_entry w _ c Hinit)
                (fun n st => eq_refl) (fun m st => eq_refl)
                (with_filters f0 st)) as Hkeep.
  pose proof (register_exclude_patterns_keeps_entry VERIFICATION_FILTER args
                ltac:(compute_done) st) as Hkeep0.
  rewrite H0 in Hkeep0. rewrite H1 in Hkeep. rewrite Hall.
  unfold entry in *. cbn [snd] in *. by rewrite Hkeep, Hkeep0.
Qed.

(** The model of the classifier cannot be loaded. *)
Lemma failed_classifier_leaves_spawn_witness :
  let w := {|
    urlparse := Urllib.urlparse;
    isfile := fun _ => false;
    import_module := fun _ => Raise ModuleNotFoundError;
    import_file_as_module := fun _ => Raise FileNotFoundError;
    value := Sample.rank;
    wordlist_is_feature_enabled := true;
    gibberish_is_feature_enabled := true;
    classifier_is_feature_ready := fun _ => true;
    cuda_is_available := true;
    initialize := fun c f =>
      (if String.eqb (callee c) "classifier"
       then Raise (OtherError "OSError") else Ok tt, f) |} in
  let out := parse_args w Sample.no_options Sample.fresh in
  classifier_is_feature_ready w Sample.no_options = true
  /\ out.1 = Raise (OtherError "OSError")
  /\ start_method out.2 = Some "spawn"
  /\ num_cores out.2 = Some [3%Z]
  /\ warnings out.2 = []
  /\ filters out.2 !! VERIFICATION_FILTER = None.
Proof.
  intros w out.
  assert (Hothers : forall c f,
            callee c <> "classifier" -> (initialize w c f).1 = Ok tt).
  { intros c f Hne. cbn [initialize w fst].
    by rewrite (proj2 (String.eqb_neq _ _) Hne). }
  assert (Hclassifier : forall c f,
            callee c = "classifier"
            -> (initialize w c f).1 = Raise (OtherError "OSError")).
  { intros c f Heq. cbn [initialize w fst]. by rewrite Heq. }
  destruct (failed_classifier_leaves_spawn w Sample.no_options Sample.fresh
              (OtherError "OSError") eq_refl Hothers Hclassifier)
    as (Hraise & Hmethod & Hcores & Hwarnings & Hpolicy).
  split; [reflexivity|]. split; [exact Hraise|]. split; [exact Hmethod|].
  split; [exact Hcores|]. split; [exact Hwarnings|].
  exact (Hpolicy (fun c f => eq_refl)).
Defined.

(** ** The warnings of [parse_args] *)

Lemma parse_args_until_disable_list (w : World) (args : Args) (st : State) :
  parse_args w args st
  = match (register_exclude_patterns args ;;
           initialize_optional_filters w args ;;
           apply_verification_policy w args) st with
    | (Ok _, st2) =>
        (disable_listed_filters args ;; register_custom_filters w args) st2
    | (Raise e, st2) => (Raise e, st2)
    end.
Proof.
  unfold parse_args. rewrite !bind_run.
  destruct (register_exclude_patterns args st) as [[[]|e] st0]; [|done].
  rewrite !bind_run.
  destruct (initialize_optional_filters w args st0) as [[[]|e] st1]; [|done].
  rewrite !bind_run.
  by destruct (apply_verification_policy w args st1) as [[[]|e] st2].
Qed.

(** X18. Whatever the outcome of [parse_args], and whatever its
    [initialize] calls do, the messages it logs are added after the
    messages logged before, they are pairwise different, and each is the
    redundancy warning of an identifier of the disable list: without a
    disable list nothing is logged. *)
Theorem warnings_only_for_disable_list (w : World) (args : Args)
    (st : State) :
  exists new,
    warnings (parse_args w args st).2 = (warnings st ++ new)%list
    /\ NoDup new
    /\ forall message, message ∈ new ->
         exists name,
           name ∈ disabled_names args /\ message = redundant_warning name.
Proof.
  destruct (registry_blocks_keep warnings w args (fun f st => eq_refl))
    as (Hpatterns & Hpolicy & Hcustom).
  assert (Hprefix : keeps warnings
            (register_exclude_patterns args ;;
             initialize_optional_filters w args ;;
             apply_verification_policy w args)).
  { apply keeps_bind; [exact Hpatterns|intros _].
    apply keeps_bind; [|intros _; exact Hpolicy].
    apply initialize_optional_filters_keeps; try done.
    intros c st'. by rewrite call_initialize_run. }
  rewrite parse_args_until_disable_list. specialize (Hprefix st).
  destruct ((register_exclude_patterns args ;;
             initialize_optional_filters w args ;;
             apply_verification_policy w args) st) as [[[]|e] st2];
    cbn [snd] in Hprefix.
  - rewrite bind_run, disable_listed_filters_run. unfold disabled_names.
    destruct (disable_filter args) as [[|item items]|].
    + exists []. rewrite Hcustom, Hprefix, app_nil_r.
      split_and!; [done|constructor|]. intros message Hin.
      by apply elem_of_nil in Hin.
    + cbv zeta. rewrite Hcustom.
      exists (map redundant_warning
                (redundant (concat (item :: items)) (filters st2))).
      cbn [warnings with_filters with_warnings default from_option id].
      rewrite Hprefix. split_and!; [done| |].
      * apply (NoDup_fmap_2 _), NoDup_redundant.
      * intros message (name & -> & Hname)%list_elem_of_fmap.
        exists name. split; [|done].
        by apply elem_of_redundant in Hname as [Hname _].
    + exists []. rewrite Hcustom, Hprefix, app_nil_r.
      split_and!; [done|constructor|]. intros message Hin.
      by apply elem_of_nil in Hin.
  - exists []. cbn [snd]. rewrite Hprefix, app_nil_r.
    split_and!; [done|constructor|]. intros message Hin.
    by apply elem_of_nil in Hin.
Qed.
